(** * flex-dump: header-to-metadata conversion scripts

    A shallow embedding of [convert_headers_to_extracted.py] and of its
    near-duplicate sibling script ("convert_headers_to_extracted 2.py"),
    together with the properties of the declaration parser and of the
    type-encoding synthesizer.

    Modelling conventions.
    - A Python [str] is a [string]; the model covers ASCII text.  A
      character outside ASCII is neither a word character nor white
      space here and is left alone by [lower].
    - Python integers are [nat] where they count or measure, and [Z]
      where the code can take them below zero; [pretty] renders them in
      decimal, as an f-string does.
    - A [dict] used as a lookup table is a [gmap string string]; the
      [seen_methods] set is a [gset string].
    - The [re] module is modelled by a backtracking matcher over a small
      pattern syntax ([Re.regex]); every pattern of the scripts is
      transcribed into that syntax next to the function that uses it. *)

From Stdlib Require Import String Ascii List Arith Bool Lia.
From stdpp Require Import base strings list gmap pretty sorting.

Local Open Scope string_scope.
Local Open Scope list_scope.
Local Open Scope nat_scope.

(** ** Python string methods *)

Module Py.

(** [str.isspace] on one ASCII character: TAB, LF, VT, FF, CR, the four
    separators FS, GS, RS, US and the blank. *)
Definition isspace (c : ascii) : bool :=
  let n := nat_of_ascii c in
  ((9 <=? n) && (n <=? 13)) || ((28 <=? n) && (n <=? 32)).

Definition isupper (c : ascii) : bool :=
  let n := nat_of_ascii c in (65 <=? n) && (n <=? 90).

Definition islower (c : ascii) : bool :=
  let n := nat_of_ascii c in (97 <=? n) && (n <=? 122).

Definition isdigit (c : ascii) : bool :=
  let n := nat_of_ascii c in (48 <=? n) && (n <=? 57).

(** The class [\w]. *)
Definition isword (c : ascii) : bool :=
  isupper c || islower c || isdigit c || Ascii.eqb c "_".

Definition lower_char (c : ascii) : ascii :=
  if isupper c then ascii_of_nat (nat_of_ascii c + 32) else c.

Fixpoint lower (s : string) : string :=
  match s with
  | "" => ""
  | String c r => String (lower_char c) (lower r)
  end.

(** [s.lstrip(chars)], [s.rstrip(chars)] and [s.strip(chars)] for a
    set of characters given as a predicate. *)
Fixpoint lstrip_by (p : ascii → bool) (s : string) : string :=
  match s with
  | "" => ""
  | String c r => if p c then lstrip_by p r else s
  end.

Fixpoint rstrip_by (p : ascii → bool) (s : string) : string :=
  match s with
  | "" => ""
  | String c r =>
      match rstrip_by p r with
      | "" => if p c then "" else String c ""
      | r' => String c r'
      end
  end.

Definition strip_by (p : ascii → bool) (s : string) : string :=
  rstrip_by p (lstrip_by p s).

Definition strip : string → string := strip_by isspace.

Fixpoint mem_char (c : ascii) (chars : string) : bool :=
  match chars with
  | "" => false
  | String d r => Ascii.eqb c d || mem_char c r
  end.

Definition rstrip_chars (chars : string) : string → string :=
  rstrip_by (λ c, mem_char c chars).

(** [s.startswith(p)] *)
Fixpoint startswith (s p : string) {struct p} : bool :=
  match p, s with
  | "", _ => true
  | String a p', String b s' => Ascii.eqb a b && startswith s' p'
  | String _ _, "" => false
  end.

(** [sub in s] *)
Fixpoint contains (s sub : string) : bool :=
  startswith s sub ||
  match s with
  | "" => false
  | String _ r => contains r sub
  end.

(** [s.endswith(p)] *)
Definition endswith (s p : string) : bool :=
  startswith (String.rev s) (String.rev p).

(** [s.count(c)] for a one-character argument. *)
Fixpoint count_char (c : ascii) (s : string) : nat :=
  match s with
  | "" => 0
  | String d r => (if Ascii.eqb c d then 1 else 0) + count_char c r
  end.

(** [s.split(c)] for a one-character separator. *)
Fixpoint split_char (c : ascii) (s : string) : list string :=
  match s with
  | "" => [""]
  | String d r =>
      if Ascii.eqb c d then "" :: split_char c r
      else match split_char c r with
           | [] => [String d ""]
           | w :: ws => String d w :: ws
           end
  end.

Fixpoint drop (n : nat) (s : string) : string :=
  match n, s with
  | S n', String _ r => drop n' r
  | _, _ => s
  end.

Fixpoint take (n : nat) (s : string) : string :=
  match n, s with
  | S n', String c r => String c (take n' r)
  | _, _ => ""
  end.

(** [s.replace(old, new)] for a non-empty [old]: the occurrences are
    found from the left and do not overlap.  [skip] counts the
    characters of an occurrence that are still to be passed over. *)
Fixpoint replace_go (old new : string) (skip : nat) (s : string) : string :=
  match s with
  | "" => ""
  | String c r =>
      match skip with
      | S k => replace_go old new k r
      | O =>
          if startswith s old
          then new +:+ replace_go old new (String.length old - 1) r
          else String c (replace_go old new 0 r)
      end
  end.

Definition replace (old new s : string) : string := replace_go old new 0 s.

(** [sep.join(l)] *)
Fixpoint join (sep : string) (l : list string) : string :=
  match l with
  | [] => ""
  | [x] => x
  | x :: r => x +:+ sep +:+ join sep r
  end.

(** [''.join(l)] *)
Definition concat (l : list string) : string := foldr String.app "" l.


(** [x in l] for a list of strings. *)
Definition in_list (x : string) (l : list string) : bool :=
  bool_decide (x ∈ l).

End Py.

(** ** The [re] module *)

Module Re.

(** Pattern syntax.  [Chr p] is a character class, [Star g r] is [r*]
    ([g = true]) or [r*?] ([g = false]), [Grp i r] is the capturing
    group number [i], [Bol] is [^]. *)
Inductive regex : Type :=
| Eps : regex
| Chr : (ascii → bool) → regex
| Cat : regex → regex → regex
| Alt : regex → regex → regex
| Star : bool → regex → regex
| Grp : nat → regex → regex
| Bol : regex.

Definition Plus (g : bool) (r : regex) : regex := Cat r (Star g r).
Definition Opt (r : regex) : regex := Alt r Eps.
Definition Lit1 (c : ascii) : regex := Chr (Ascii.eqb c).
Fixpoint Lit (s : string) : regex :=
  match s with
  | "" => Eps
  | String c r => Cat (Lit1 c) (Lit r)
  end.
Fixpoint Cats (l : list regex) : regex :=
  match l with
  | [] => Eps
  | [r] => r
  | r :: l' => Cat r (Cats l')
  end.

(** Character classes of the scripts' patterns. *)
Definition space : regex := Chr Py.isspace.
Definition word : regex := Chr Py.isword.
Definition any_dotall : regex := Chr (λ _, true).
Definition any : regex := Chr (λ c, negb (Ascii.eqb c "010")).
Definition none_of (chars : string) : regex :=
  Chr (λ c, negb (Py.mem_char c chars)).
Definition one_of (chars : string) : regex :=
  Chr (λ c, Py.mem_char c chars).

(** The groups captured so far; a group that took no part in the match
    has no entry (Python's [None]). *)
Definition caps : Type := gmap nat string.

(** A match object: start, end, captured groups. *)
Record match_obj : Type := MatchObj {
  m_start : nat;
  m_end : nat;
  m_groups : caps
}.

Definition group (i : nat) (m : match_obj) : option string := m_groups m !! i.

(** [m.group(i)] where the script relies on the group having matched. *)
Definition group_str (i : nat) (m : match_obj) : string :=
  default "" (group i m).

Definition cont : Type := string → nat → caps → option (nat * caps).

(** Backtracking matcher in continuation-passing style: [run r k s pos c]
    matches [r] at the head of [s] (which starts at offset [pos] of the
    subject) and hands the rest to [k]; the first success in the
    engine's preference order wins.  An iteration of a starred pattern
    has to consume a character. *)
Fixpoint run (r : regex) (k : cont) (s : string) (pos : nat) (c : caps)
  {struct r} : option (nat * caps) :=
  match r with
  | Eps => k s pos c
  | Chr p =>
      match s with
      | String a s' => if p a then k s' (S pos) c else None
      | "" => None
      end
  | Cat r1 r2 => run r1 (run r2 k) s pos c
  | Alt r1 r2 =>
      match run r1 k s pos c with
      | Some x => Some x
      | None => run r2 k s pos c
      end
  | Star greedy r' =>
      (fix loop (n : nat) (s : string) (pos : nat) (c : caps)
         : option (nat * caps) :=
         match n with
         | O => k s pos c
         | S n' =>
             let again := λ s' pos' c',
               if pos <? pos' then loop n' s' pos' c' else None in
             if greedy then
               match run r' again s pos c with
               | Some x => Some x
               | None => k s pos c
               end
             else
               match k s pos c with
               | Some x => Some x
               | None => run r' again s pos c
               end
         end) (String.length s) s pos c
  | Grp i r' =>
      run r' (λ s' pos' c', k s' pos' (<[i := Py.take (pos' - pos) s]> c'))
          s pos c
  | Bol => if pos =? 0 then k s pos c else None
  end.

Definition accept : cont := λ _ pos c, Some (pos, c).

(** One attempt at offset [pos], [s] being the subject from there on. *)
Definition match_at (r : regex) (s : string) (pos : nat) : option match_obj :=
  match run r accept s pos ∅ with
  | Some (e, c) => Some (MatchObj pos e c)
  | None => None
  end.

(** [re.match(r, s)] *)
Definition rmatch (r : regex) (s : string) : option match_obj :=
  match_at r s 0.

(** Leftmost match at or after [pos]. *)
Fixpoint search_from (r : regex) (fuel : nat) (s : string) (pos : nat)
  : option match_obj :=
  match match_at r s pos with
  | Some m => Some m
  | None =>
      match fuel, s with
      | S f, String _ s' => search_from r f s' (S pos)
      | _, _ => None
      end
  end.

(** [re.search(r, s)] *)
Definition search (r : regex) (s : string) : option match_obj :=
  search_from r (String.length s) s 0.

(** [re.finditer(r, s)]: the successive non-overlapping matches, from
    the left.  After an empty match the scan moves on by one
    character. *)
Fixpoint finditer_from (r : regex) (fuel : nat) (s : string) (pos : nat)
  : list match_obj :=
  match fuel with
  | O => []
  | S f =>
      match search_from r (String.length s) s pos with
      | None => []
      | Some m =>
          let e := if m_start m <? m_end m then m_end m else S (m_end m) in
          m :: finditer_from r f (Py.drop (e - pos) s) e
      end
  end.

Definition finditer (r : regex) (s : string) : list match_obj :=
  finditer_from r (S (String.length s)) s 0.

Definition substr (s : string) (i j : nat) : string :=
  Py.take (j - i) (Py.drop i s).

(** [re.findall(r, s)] for a pattern without group: the matched texts. *)
Definition findall0 (r : regex) (s : string) : list string :=
  map (λ m, substr s (m_start m) (m_end m)) (finditer r s).

(** [re.findall(r, s)] for a pattern with exactly one group, numbered
    1: the texts of that group. *)
Definition findall1 (r : regex) (s : string) : list string :=
  map (group_str 1) (finditer r s).

(** The pieces of [s] between the matches, for [re.split] and
    [re.sub]. *)
Fixpoint pieces (s : string) (pos : nat) (ms : list match_obj)
  : list string :=
  match ms with
  | [] => [Py.drop pos s]
  | m :: ms' => substr s pos (m_start m) :: pieces s (m_end m) ms'
  end.

(** [re.split(r, s)] for a pattern without group. *)
Definition split (r : regex) (s : string) : list string :=
  pieces s 0 (finditer r s).

(** [re.sub(r, repl, s)] where the replacement is computed from the
    match object. *)
Fixpoint sub_go (repl : match_obj → string) (s : string) (pos : nat)
  (ms : list match_obj) : string :=
  match ms with
  | [] => Py.drop pos s
  | m :: ms' =>
      substr s pos (m_start m) +:+ repl m +:+ sub_go repl s (m_end m) ms'
  end.

Definition sub (r : regex) (repl : match_obj → string) (s : string) : string :=
  sub_go repl s 0 (finditer r s).

End Re.

(** ** Exceptions *)

(** A computation of the scripts either returns or raises; the only
    operation of the modelled code that can raise is an index out of
    range ([IndexError]) and the read of a unit ([OSError] and the
    like). *)
Inductive py_result (A : Type) : Type :=
| Ok : A → py_result A
| Raised : string → py_result A.
Arguments Ok {A} _.
Arguments Raised {A} _.

Global Instance py_ret : MRet py_result := λ A x, Ok x.
Global Instance py_bind : MBind py_result := λ A B f m,
  match m with
  | Ok x => f x
  | Raised e => Raised e
  end.

(** [l[i]] *)
Definition index {A} (l : list A) (i : nat) : py_result A :=
  match l !! i with
  | Some x => Ok x
  | None => Raised "IndexError"
  end.

(** The dictionary built for one method. *)
Record method_info : Type := MethodInfo {
  prefix : string;
  selector : string;
  typeEncoding : string;
  displayName : string;
  className : string
}.

Definition nl : string := String "010" "".

(** ** convert_headers_to_extracted.py *)

Module Main.

Definition special_method_encodings : gmap string string :=
  list_to_map [
    ("dealloc", "v16@0:8");
    ("release", "v16@0:8");
    ("retain", "@16@0:8");
    ("autorelease", "@16@0:8");
    ("init", "@16@0:8");
    ("new", "@16@0:8");
    ("alloc", "@16@0:8");
    ("isEqual:", "B24@0:8@16");
    ("isLogFile:", "B24@0:8@16");
    ("isInSet:", "B24@0:8@16");
    ("hash", "Q16@0:8");
    ("description", "@16@0:8");
    ("debugDescription", "@16@0:8");
    ("class", "#16@0:8");
    ("superclass", "#16@0:8");
    ("conformsToProtocol:", "B24@0:8^#16");
    ("isKindOfClass:", "B24@0:8#16");
    ("respondsToSelector:", "B24@0:8:16");
    ("copyWithZone:", "@24@0:8^{_NSZone=}16");
    ("mutableCopyWithZone:", "@24@0:8^{_NSZone=}16")
  ].

Definition struct_types : gmap string string :=
  list_to_map [
    ("CGRect", "{CGRect={CGPoint=dd}{CGSize=dd}}");
    ("CGPoint", "{CGPoint=dd}");
    ("CGSize", "{CGSize=dd}");
    ("NSRange", "{_NSRange=QQ}");
    ("UIEdgeInsets", "{UIEdgeInsets=dddd}");
    ("CGAffineTransform", "{CGAffineTransform=dddddd}");
    ("IMAAdPlaybackInfo", "^{?=iiiiddddd{?=iiiiiiiiiiiiii}}");
    ("struct _NSZone *", "^{_NSZone=}");
    ("_NSZone *", "^{_NSZone=}");
    ("NSXMLParser *", "@");
    ("Protocol *", "^#");
    ("id<Protocol>", "@")
  ].

Definition type_map : gmap string string :=
  list_to_map [
    ("void", "v");
    ("BOOL", "B"); ("bool", "B"); ("_Bool", "B"); ("Bool", "B"); ("bool_", "B");
    ("instancetype", "@");
    ("double", "d");
    ("long long", "q"); ("long", "q");
    ("unsigned long long", "Q");
    ("unsigned int", "I");
    ("int", "i");
    ("float", "f");
    ("id", "@");
    ("NSString *", "@");
    ("NSArray *", "@");
    ("NSDictionary *", "@");
    ("NSObject *", "@");
    ("Class", "#");
    ("SEL", ":");
    ("char *", "*");
    ("const char *", "r*");
    ("void *", "^v");
    ("IMP", "^?");
    ("id *", "^@");
    ("NSError *", "@");
    ("NSError **", "^@");
    ("CDUnknownBlockType", "@?");
    ("dispatch_block_t", "@?");
    ("void(^)(void)", "@?")
  ].

(** The branch [if '^' in return_type or 'CDUnknownBlockType' in
    return_type]; [return_type] is already stripped. *)
Definition is_block (return_type : string) : bool :=
  Py.contains return_type "^" || Py.contains return_type "CDUnknownBlockType".

Definition block_encoding (return_type : string) : string :=
  if Py.contains return_type "(void (^)(_Bool))"
     || Py.contains return_type "(void (^)(BOOL))" then "v32@0:8@?16@24"
  else if Py.contains return_type "(void (^)(void))" then "v24@0:8@?16"
  else if Py.contains return_type "(void (^)(id))" then "v32@0:8@?16@24"
  else if Py.contains return_type "CDUnknownBlockType" then "v32@0:8@?16@24"
  else if Py.startswith return_type "_Bool (^)"
          || Py.startswith return_type "BOOL (^)" then "B32@0:8@?16@24"
  else "@32@0:8@?16@24".

Definition is_ns_ui (base_type : string) : bool :=
  Py.startswith base_type "NS" || Py.startswith base_type "UI".

(** The chain [if return_type.endswith('**') ... elif
    return_type.endswith('*') ... else type_map.get(return_type, '@')]. *)
Definition pointer_or_basic (return_type : string) : string :=
  if Py.endswith return_type "**" then
    let base_type := Py.strip (Py.rstrip_chars "* " return_type) in
    if Py.contains base_type "const" then
      let base_type := Py.strip (Py.replace "const" "" base_type) in
      if is_ns_ui base_type then "r^@" else "r^^"
    else
      if is_ns_ui base_type then "^@" else "^^"
  else if Py.endswith return_type "*" then
    let base_type := Py.strip (Py.rstrip_chars "* " return_type) in
    if Py.contains base_type "const" then
      let base_type := Py.strip (Py.replace "const" "" base_type) in
      if is_ns_ui base_type then "r@"
      else if String.eqb base_type "char" then "r*"
      else "r^"
    else
      if is_ns_ui base_type then "@" else "^"
  else default "@" (type_map !! return_type).

(** Everything after the shortcut for BOOL methods. *)
Definition encode_general (return_type selector : string) : string :=
  let return_type :=
    if String.eqb (Py.strip return_type) "instancetype" then "id"
    else return_type in
  let params_count := Py.count_char ":" selector in
  let base_size := 16 in
  let param_size := 8 in
  let total_size := base_size + param_size * params_count in
  let return_type := Py.strip return_type in
  if is_block return_type then block_encoding return_type
  else
    match struct_types !! return_type with
    | Some type_prefix => type_prefix +:+ pretty total_size +:+ "@0:8"
    | None => pointer_or_basic return_type +:+ pretty total_size +:+ "@0:8"
    end.

Definition calculate_type_encoding (return_type selector : string)
  (params : option (list (string * string))) : py_result string :=
  let return_type :=
    if String.eqb return_type "_Bool" then "bool" else return_type in
  match special_method_encodings !! selector with
  | Some e => Ok e
  | None =>
      if Py.in_list (Py.strip return_type) ["BOOL"; "_Bool"]
         && Py.contains selector ":" then
        param_type ← index (Py.split_char ":" selector) 1;
        if String.eqb (Py.strip param_type) "(id)" then Ok "B24@0:8@16"
        else Ok (encode_general return_type selector)
      else Ok (encode_general return_type selector)
  end.

(** The pattern of [parse_method_declaration], written here with a
    blank between its tokens:
    [ ([+-]) \s* \( ( [\w\s*<>{}\[\]]+ (?: \s* \* )? ) \) \s* ( [^;]+ ) ] *)
Definition return_type_char (c : ascii) : bool :=
  Py.isword c || Py.isspace c || Py.mem_char c "*<>{}[]".

Definition method_head : list Re.regex :=
  [ Re.Grp 1 (Re.one_of "+-");
    Re.Star true Re.space;
    Re.Lit1 "(";
    Re.Grp 2 (Re.Cat (Re.Plus true (Re.Chr return_type_char))
                     (Re.Opt (Re.Cat (Re.Star true Re.space) (Re.Lit1 "*"))));
    Re.Lit1 ")";
    Re.Star true Re.space;
    Re.Grp 3 (Re.Plus true (Re.none_of ";")) ].

Definition declaration_pattern : Re.regex := Re.Cats method_head.

(** [ \( [^)]+ \) \s* \w+ ], the separator of [re.split]. *)
Definition typed_name_pattern : Re.regex :=
  Re.Cats [ Re.Lit1 "("; Re.Plus true (Re.none_of ")"); Re.Lit1 ")";
            Re.Star true Re.space; Re.Plus true Re.word ].

(** [ \( ( [^)]+ ) \) ], the pattern of [re.findall]. *)
Definition paren_type_pattern : Re.regex :=
  Re.Cats [ Re.Lit1 "("; Re.Grp 1 (Re.Plus true (Re.none_of ")")); Re.Lit1 ")" ].

Definition bool_spellings : list string := ["_bool"; "bool"; "bool_"; "bool"].

(** [method_parts] and [types] of a selector that contains a colon. *)
Definition method_parts_of (selector : string) : list string :=
  let parts := Re.split typed_name_pattern selector in
  map (λ p, Py.rstrip_chars ":" (Py.strip p))
      (filter (λ p, Py.strip p ≠ "") parts).

Definition types_of (selector : string) : list string :=
  Re.findall1 paren_type_pattern selector.

(** The type of parameter [i], as the loop body cleans it up. *)
Definition param_type_at (types : list string) (i : nat) : string :=
  let param_type := Py.strip (default "id" (types !! i)) in
  if Py.in_list (Py.lower param_type) bool_spellings then "bool"
  else param_type.

(** The pair appended to [param_types] for parameter [i]. *)
Definition param_code_at (types : list string) (i : nat) : string * nat :=
  let param_type := Py.strip (default "id" (types !! i)) in
  let l := Py.lower param_type in
  if Py.in_list l bool_spellings then ("B", 16 + i * 8)
  else if Py.in_list l ["int"; "nsinteger"] then ("i", 16 + i * 8)
  else if Py.in_list l ["long"; "long long"; "nsuinteger"] then ("q", 16 + i * 8)
  else if Py.in_list l ["float"; "cgfloat"] then ("f", 16 + i * 8)
  else if String.eqb l "double" then ("d", 16 + i * 8)
  else ("@", 16 + i * 8).

Definition display_type_of (return_type : string) : string :=
  if Py.in_list (Py.lower return_type) bool_spellings then "bool"
  else if Py.contains return_type "Protocol" then "Protocol *"
  else return_type.

Definition return_code_of (return_type display_type : string) : string :=
  if String.eqb return_type "void" then "v"
  else if String.eqb display_type "bool" then "B"
  else if String.eqb return_type "int" then "i"
  else if String.eqb return_type "long" then "q"
  else if String.eqb return_type "float" then "f"
  else if String.eqb return_type "double" then "d"
  else "@".

Definition token (p : string * nat) : string := p.1 +:+ pretty p.2.

(** The body of [parse_method_declaration] once the line has matched. *)
Definition parse_groups (prefix return_type selector class_name : string)
  : py_result method_info :=
  let return_type := Py.strip return_type in
  if Py.contains selector ".cxx_destruct" then
    Ok (MethodInfo prefix ".cxx_destruct" "v16@0:8"
                   (prefix +:+ "(void) .cxx_destruct") class_name)
  else
    let display_type := display_type_of return_type in
    let selector := Py.strip selector in
    if negb (Py.contains selector ":") then
      let clean_selector := selector in
      let display_name := prefix +:+ "(" +:+ display_type +:+ ") " +:+ selector in
      type_encoding ← calculate_type_encoding return_type clean_selector None;
      Ok (MethodInfo prefix clean_selector type_encoding display_name class_name)
    else
      let method_parts := method_parts_of selector in
      let types := types_of selector in
      let clean_selector := Py.join ":" method_parts +:+ ":" in
      let display_parts :=
        imap (λ i part, part +:+ ":(" +:+ param_type_at types i +:+ ")")
             method_parts in
      let param_types := imap (λ i _, param_code_at types i) method_parts in
      let display_name :=
        prefix +:+ "(" +:+ display_type +:+ ") " +:+ Py.join " " display_parts in
      let return_code := return_code_of return_type display_type in
      let total_size := 16 + length param_types * 8 in
      let type_encoding :=
        return_code +:+ pretty total_size +:+ "@0:8"
          +:+ Py.concat (map token param_types) in
      Ok (MethodInfo prefix clean_selector type_encoding display_name class_name).

Definition parse_method_declaration (line class_name : string)
  : py_result (option method_info) :=
  match Re.rmatch declaration_pattern (Py.strip line) with
  | None => Ok None
  | Some m =>
      info ← parse_groups (Re.group_str 1 m) (Re.group_str 2 m)
                          (Re.group_str 3 m) class_name;
      Ok (Some info)
  end.


(** [ [^:\s()]+ | \( | \) | : ], the tokens of [parse_method_parts]. *)
Definition token_pattern : Re.regex :=
  Re.Alt (Re.Plus true (Re.Chr (λ c, negb (Py.mem_char c ":()" || Py.isspace c))))
    (Re.Alt (Re.Lit1 "(") (Re.Alt (Re.Lit1 ")") (Re.Lit1 ":"))).

(** The loop of [parse_method_parts]; the state is [parts],
    [current_name], [current_type] and [in_parens].  The counter is an
    integer: a closing parenthesis that has no opening one takes it
    below zero. *)
Fixpoint parts_loop (tokens : list string) (parts : list (string * string))
  (current_name current_type : list string) (in_parens : Z)
  : list (string * string) :=
  match tokens with
  | [] => parts
  | tok :: rest =>
      let keep in_parens :=
        if (0 <? in_parens)%Z
        then parts_loop rest parts current_name (current_type ++ [tok]) in_parens
        else parts_loop rest parts (current_name ++ [tok]) current_type in_parens in
      if String.eqb tok "(" then
        let in_parens := (in_parens + 1)%Z in
        if (in_parens =? 1)%Z
        then parts_loop rest parts current_name current_type in_parens
        else keep in_parens
      else if String.eqb tok ")" then
        let in_parens := (in_parens - 1)%Z in
        if (in_parens =? 0)%Z
        then parts_loop rest parts current_name current_type in_parens
        else keep in_parens
      else if String.eqb tok ":" then
        if (in_parens =? 0)%Z then
          let name := Py.strip (Py.concat current_name) in
          let param_type := Py.strip (Py.concat current_type) in
          parts_loop rest (parts ++ [(name, param_type)]) [] [] in_parens
        else keep in_parens
      else keep in_parens
  end.

Definition parse_method_parts (selector : string) : list (string * string) :=
  parts_loop (Re.findall0 token_pattern selector) [] [] [] 0%Z.

End Main.

(** ** convert_headers_to_extracted 2.py *)

Module Second.

Definition special_method_encodings : gmap string string :=
  list_to_map [
    ("dealloc", "v16@0:8");
    ("release", "v16@0:8");
    ("retain", "@16@0:8");
    ("autorelease", "@16@0:8");
    ("init", "@16@0:8");
    ("new", "@16@0:8");
    ("alloc", "@16@0:8");
    ("isEqual:", "B24@0:8@16");
    ("isLogFile:", "B24@0:8@16");
    ("isInSet:", "B24@0:8@16");
    ("hash", "Q16@0:8");
    ("description", "@16@0:8");
    ("debugDescription", "@16@0:8");
    ("class", "#16@0:8");
    ("superclass", "#16@0:8");
    ("conformsToProtocol:", "B24@0:8^#16");
    ("isKindOfClass:", "B24@0:8#16");
    ("respondsToSelector:", "B24@0:8:16");
    ("copyWithZone:", "@24@0:8^{_NSZone=}16");
    ("mutableCopyWithZone:", "@24@0:8^{_NSZone=}16")
  ].

Definition struct_types : gmap string string :=
  list_to_map [
    ("CGRect", "{CGRect={CGPoint=dd}{CGSize=dd}}");
    ("CGPoint", "{CGPoint=dd}");
    ("CGSize", "{CGSize=dd}");
    ("NSRange", "{_NSRange=QQ}");
    ("UIEdgeInsets", "{UIEdgeInsets=dddd}");
    ("CGAffineTransform", "{CGAffineTransform=dddddd}");
    ("IMAAdPlaybackInfo", "^{?=iiiiddddd{?=iiiiiiiiiiiiii}}");
    ("struct _NSZone *", "^{_NSZone=}");
    ("_NSZone *", "^{_NSZone=}");
    ("NSXMLParser *", "@");
    ("Protocol *", "^#");
    ("id<Protocol>", "@")
  ].

Definition type_map : gmap string string :=
  list_to_map [
    ("void", "v");
    ("BOOL", "B"); ("bool", "B"); ("_Bool", "B"); ("Bool", "B"); ("bool_", "B");
    ("instancetype", "@");
    ("double", "d");
    ("long long", "q"); ("long", "q");
    ("unsigned long long", "Q");
    ("unsigned int", "I");
    ("int", "i");
    ("float", "f");
    ("id", "@");
    ("NSString *", "@");
    ("NSArray *", "@");
    ("NSDictionary *", "@");
    ("NSObject *", "@");
    ("Class", "#");
    ("SEL", ":");
    ("char *", "*");
    ("const char *", "r*");
    ("void *", "^v");
    ("IMP", "^?");
    ("id *", "^@");
    ("NSError *", "@");
    ("NSError **", "^@");
    ("CDUnknownBlockType", "@?");
    ("dispatch_block_t", "@?");
    ("void(^)(void)", "@?")
  ].

Definition is_block (return_type : string) : bool :=
  Py.contains return_type "^" || Py.contains return_type "CDUnknownBlockType".

Definition block_encoding (return_type : string) : string :=
  if Py.contains return_type "(void (^)(_Bool))"
     || Py.contains return_type "(void (^)(BOOL))" then "v32@0:8@?16@24"
  else if Py.contains return_type "(void (^)(void))" then "v24@0:8@?16"
  else if Py.contains return_type "(void (^)(id))" then "v32@0:8@?16@24"
  else if Py.contains return_type "CDUnknownBlockType" then "v32@0:8@?16@24"
  else if Py.startswith return_type "_Bool (^)"
          || Py.startswith return_type "BOOL (^)" then "B32@0:8@?16@24"
  else "@32@0:8@?16@24".

Definition is_ns_ui (base_type : string) : bool :=
  Py.startswith base_type "NS" || Py.startswith base_type "UI".

Definition pointer_or_basic (return_type : string) : string :=
  if Py.endswith return_type "**" then
    let base_type := Py.strip (Py.rstrip_chars "* " return_type) in
    if Py.contains base_type "const" then
      let base_type := Py.strip (Py.replace "const" "" base_type) in
      if is_ns_ui base_type then "r^@" else "r^^"
    else
      if is_ns_ui base_type then "^@" else "^^"
  else if Py.endswith return_type "*" then
    let base_type := Py.strip (Py.rstrip_chars "* " return_type) in
    if Py.contains base_type "const" then
      let base_type := Py.strip (Py.replace "const" "" base_type) in
      if is_ns_ui base_type then "r@"
      else if String.eqb base_type "char" then "r*"
      else "r^"
    else
      if is_ns_ui base_type then "@" else "^"
  else default "@" (type_map !! return_type).

Definition encode_general (return_type selector : string) : string :=
  let return_type :=
    if String.eqb (Py.strip return_type) "instancetype" then "id"
    else return_type in
  let params_count := Py.count_char ":" selector in
  let base_size := 16 in
  let param_size := 8 in
  let total_size := base_size + param_size * params_count in
  let return_type := Py.strip return_type in
  if is_block return_type then block_encoding return_type
  else
    match struct_types !! return_type with
    | Some type_prefix => type_prefix +:+ pretty total_size +:+ "@0:8"
    | None => pointer_or_basic return_type +:+ pretty total_size +:+ "@0:8"
    end.

Definition calculate_type_encoding (return_type selector : string)
  (params : option (list (string * string))) : py_result string :=
  let return_type :=
    if String.eqb return_type "_Bool" then "bool" else return_type in
  match special_method_encodings !! selector with
  | Some e => Ok e
  | None =>
      if Py.in_list (Py.strip return_type) ["BOOL"; "_Bool"]
         && Py.contains selector ":" then
        param_type ← index (Py.split_char ":" selector) 1;
        if String.eqb (Py.strip param_type) "(id)" then Ok "B24@0:8@16"
        else Ok (encode_general return_type selector)
      else Ok (encode_general return_type selector)
  end.

(** The pattern of this script's [parse_method_declaration], with a
    blank between its tokens:
    [ ^ ([+-]) \s* \( ( [\w\s*<>]+ ) \) \s*
      ( (?: [^\s:]+ \s* (?: \( [^)]+ \) )? \s* :? \s* (?: \( [^)]+ \) )? \s* )* ) ] *)
Definition return_type_char (c : ascii) : bool :=
  Py.isword c || Py.isspace c || Py.mem_char c "*<>".

Definition paren_group : Re.regex :=
  Re.Cats [ Re.Lit1 "("; Re.Plus true (Re.none_of ")"); Re.Lit1 ")" ].

Definition selector_chunk : Re.regex :=
  Re.Cats [ Re.Plus true (Re.Chr (λ c, negb (Py.isspace c || Ascii.eqb c ":")));
            Re.Star true Re.space;
            Re.Opt paren_group;
            Re.Star true Re.space;
            Re.Opt (Re.Lit1 ":");
            Re.Star true Re.space;
            Re.Opt paren_group;
            Re.Star true Re.space ].

Definition declaration_pattern : Re.regex :=
  Re.Cats [ Re.Bol;
            Re.Grp 1 (Re.one_of "+-");
            Re.Star true Re.space;
            Re.Lit1 "(";
            Re.Grp 2 (Re.Plus true (Re.Chr return_type_char));
            Re.Lit1 ")";
            Re.Star true Re.space;
            Re.Grp 3 (Re.Star true selector_chunk) ].

(** [ (\w+)? \s* : \s* \( ( [^)]+ ) \) ], the pattern of [param_sections]. *)
Definition param_section_pattern : Re.regex :=
  Re.Cats [ Re.Opt (Re.Grp 1 (Re.Plus true Re.word));
            Re.Star true Re.space;
            Re.Lit1 ":";
            Re.Star true Re.space;
            Re.Lit1 "(";
            Re.Grp 2 (Re.Plus true (Re.none_of ")"));
            Re.Lit1 ")" ].

(** One turn of the loop over [param_sections]: the name and the
    cleaned type of the parameter. *)
Definition param_of (m : Re.match_obj) : string * string :=
  let param_name := default "" (Re.group 1 m) in
  let param_type := Py.strip (Re.group_str 2 m) in
  let param_type :=
    if String.eqb param_type "_Bool" then "bool"
    else if Py.in_list (Py.lower param_type) ["id"; "id)"; "instancetype"]
         then "id"
    else param_type in
  (param_name, param_type).

Definition selector_part (p : string * string) : string :=
  if bool_decide (p.1 ≠ "") then p.1 +:+ ":" else ":".

Definition display_part (p : string * string) : string :=
  if bool_decide (p.1 ≠ "") then p.1 +:+ ":(" +:+ p.2 +:+ ")"
  else ":(" +:+ p.2 +:+ ")".

Definition parse_groups (prefix return_type selector_with_types class_name : string)
  : py_result method_info :=
  let return_type := Py.strip return_type in
  let return_type :=
    if String.eqb return_type "_Bool" then "bool" else return_type in
  let method_parts := Py.split_char ":" selector_with_types in
  if negb (Py.contains selector_with_types ":") then
    let selector := Py.strip selector_with_types in
    let display_name := prefix +:+ "(" +:+ return_type +:+ ") " +:+ selector in
    type_encoding ← calculate_type_encoding return_type selector (Some []);
    Ok (MethodInfo prefix selector type_encoding display_name class_name)
  else
    first ← index method_parts 0;
    let method_name := Py.strip first in
    let parts :=
      map param_of (Re.finditer param_section_pattern selector_with_types) in
    let selector_parts := map selector_part parts in
    let display_parts := map display_part parts in
    let selector :=
      if bool_decide (method_name ≠ "")
      then method_name +:+ ":" +:+ Py.concat selector_parts
      else Py.concat selector_parts in
    let display_name :=
      if bool_decide (method_name ≠ "")
      then (prefix +:+ "(" +:+ return_type +:+ ") " +:+ method_name +:+ ":")
             +:+ Py.join " " display_parts
      else (prefix +:+ "(" +:+ return_type +:+ ") ") +:+ Py.join " " display_parts in
    type_encoding ← calculate_type_encoding return_type selector (Some parts);
    Ok (MethodInfo prefix selector type_encoding display_name class_name).

Definition parse_method_declaration (line class_name : string)
  : py_result (option method_info) :=
  match Re.rmatch declaration_pattern line with
  | None => Ok None
  | Some m =>
      info ← parse_groups (Re.group_str 1 m) (Re.group_str 2 m)
                          (Re.group_str 3 m) class_name;
      Ok (Some info)
  end.

End Second.

(** ** The driver, common to the two scripts

    [process_header_file] and [create_extracted_xml] have the same text
    in the two scripts; they are stated once, over the script's own
    [parse_method_declaration]. *)

(** The value of [class_info]. *)
Record class_info : Type := ClassInfo {
  name : option string;
  superClassName : option string;
  methods : list method_info
}.

(** An [xml.etree] element: tag, attributes, text, children in order. *)
#[warnings="-register-all"]
Inductive element : Type :=
| Element : string → list (string * string) → option string → list element → element.

Section Driver.

Variable parse_method_declaration :
  string → string → py_result (option method_info).

(** "//.*?\n|/\*.*?\*/" under [re.DOTALL] *)
Definition comment_pattern : Re.regex :=
  Re.Alt (Re.Cats [Re.Lit "//"; Re.Star false Re.any_dotall; Re.Lit1 "010"])
         (Re.Cats [Re.Lit "/*"; Re.Star false Re.any_dotall; Re.Lit "*/"]).

(** "#.*?\n" *)
Definition directive_pattern : Re.regex :=
  Re.Cats [Re.Lit1 "#"; Re.Star false Re.any; Re.Lit1 "010"].

(** [ ( \n \s* ) ([+-]) ] *)
Definition line_start_pattern : Re.regex :=
  Re.Cats [ Re.Grp 1 (Re.Cat (Re.Lit1 "010") (Re.Star true Re.space));
            Re.Grp 2 (Re.one_of "+-") ].

(** [ @interface \s+ (\w+) \s* : \s* (\w+) ] *)
Definition interface_pattern : Re.regex :=
  Re.Cats [ Re.Lit "@interface"; Re.Plus true Re.space;
            Re.Grp 1 (Re.Plus true Re.word); Re.Star true Re.space;
            Re.Lit1 ":"; Re.Star true Re.space;
            Re.Grp 2 (Re.Plus true Re.word) ].

(** [ @protocol \s+ (\w+) ] *)
Definition protocol_pattern : Re.regex :=
  Re.Cats [ Re.Lit "@protocol"; Re.Plus true Re.space;
            Re.Grp 1 (Re.Plus true Re.word) ].

(** [ @interface \s+ (\w+) \s* \( (\w* ) \) ] *)
Definition category_pattern : Re.regex :=
  Re.Cats [ Re.Lit "@interface"; Re.Plus true Re.space;
            Re.Grp 1 (Re.Plus true Re.word); Re.Star true Re.space;
            Re.Lit1 "("; Re.Grp 2 (Re.Star true Re.word); Re.Lit1 ")" ].

(** The pattern of a method statement: the one of
    [Main.declaration_pattern] followed by the semicolon. *)
Definition method_pattern : Re.regex :=
  Re.Cats (Main.method_head ++ [Re.Lit1 ";"]).

(** "\s+" *)
Definition spaces_pattern : Re.regex := Re.Plus true Re.space.

(** The text the patterns are applied to. *)
Definition clean_content (content : string) : string :=
  let content := Re.sub comment_pattern (λ _, "") content in
  let content := Re.sub directive_pattern (λ _, "") content in
  Re.sub line_start_pattern (λ m, " " +:+ Re.group_str 2 m) content.

(** [current_interface] and [superclass] after the three searches and
    the default. *)
Definition find_owner (content : string) : string * option string :=
  let found :=
    match Re.search interface_pattern content with
    | Some m => (Some (Re.group_str 1 m), Some (Re.group_str 2 m))
    | None =>
        match Re.search protocol_pattern content with
        | Some m => (Some (Re.group_str 1 m), Some "NSObject")
        | None =>
            match Re.search category_pattern content with
            | Some m => (Some (Re.group_str 1 m), None)
            | None => (None, None)
            end
        end
    end in
  match found.1 with
  | Some i => if bool_decide (i ≠ "") then (i, found.2) else ("NSObject", found.2)
  | None => ("NSObject", found.2)
  end.

(** [match.groups()] of a method statement. *)
Definition statement : Type := string * string * string.

Definition statements (content : string) : list statement :=
  map (λ m, (Re.group_str 1 m, Re.group_str 2 m, Re.group_str 3 m))
      (Re.finditer method_pattern content).

(** The selector of a statement, with its white space normalized. *)
Definition clean_selector (st : statement) : string :=
  Re.sub spaces_pattern (λ _, " ") (Py.strip st.2).

Definition method_key (st : statement) : string :=
  st.1.1 +:+ Py.strip (clean_selector st).

(** The loop over [method_matches]; [seen_methods] and [methods] are
    its state.  A statement is the triple (prefix, return type,
    selector) of its match. *)
Fixpoint method_loop (current_interface : string) (sts : list statement)
  (seen_methods : gset string) (methods : list method_info)
  : py_result (list method_info) :=
  match sts with
  | [] => Ok methods
  | st :: rest =>
      let key := method_key st in
      if bool_decide (key ∈ seen_methods) then
        method_loop current_interface rest seen_methods methods
      else
        let seen_methods := seen_methods ∪ {[ key ]} in
        method_info ← parse_method_declaration
          (st.1.1 +:+ "(" +:+ st.1.2 +:+ ") " +:+ clean_selector st)
          current_interface;
        match method_info with
        | Some mi =>
            let mi := MethodInfo (prefix mi) (selector mi) (typeEncoding mi)
                                 (displayName mi) current_interface in
            method_loop current_interface rest seen_methods (methods ++ [mi])
        | None => method_loop current_interface rest seen_methods methods
        end
  end.

(** The body of the [try] once the text has been read. *)
Definition process_content (content : string)
  : py_result (list method_info * string * option string) :=
  let content := clean_content content in
  let owner := find_owner content in
  methods ← method_loop owner.1 (statements content) ∅ [];
  Ok (methods, owner.1, owner.2).

(** The file system: what [open(file_path).read()] gives, a text or an
    exception with its message. *)
Variable read : string → py_result string.

(** [process_header_file] returns its triple and the lines it has
    printed. *)
Definition process_header_file (file_path : string)
  : (list method_info * option string * option string) * list string :=
  match content ← read file_path; process_content content with
  | Ok (methods, current_interface, superclass) =>
      ((methods, Some current_interface, superclass), [])
  | Raised e =>
      (([], None, None),
       ["Error processing file " +:+ file_path +:+ ": " +:+ e])
  end.

(** [os.path.join(headers_dir, filename)] *)
Definition path_join (a b : string) : string :=
  if Py.startswith b "/" then b
  else if String.eqb a "" || Py.endswith a "/" then a +:+ b
  else a +:+ "/" +:+ b.

(** The loop that fills [classes_data]; the second component is what
    has been printed. *)
Fixpoint classes_loop (headers_dir : string) (filenames : list string)
  (classes_data : list class_info) (out : list string)
  : list class_info * list string :=
  match filenames with
  | [] => (classes_data, out)
  | filename :: rest =>
      if negb (Py.endswith filename ".h") then
        classes_loop headers_dir rest classes_data out
      else
        let filepath := path_join headers_dir filename in
        let '((methods, class_name, super_class), printed) :=
          process_header_file filepath in
        let out := out ++ printed in
        match methods with
        | _ :: _ =>
            classes_loop headers_dir rest
              (classes_data ++ [ClassInfo class_name super_class methods]) out
        | [] => classes_loop headers_dir rest classes_data out
        end
  end.

(** [sorted(os.listdir(headers_dir))] *)
Definition sorted (l : list string) : list string := merge_sort (≤)%string l.

Definition strip_args (s : string) : string :=
  Py.replace "arg4" "" (Py.replace "arg3" "" (Py.replace "arg2" "" (Py.replace "arg1" "" s))).

(** The dictionary [clean_method]. *)
Definition clean_method (method : method_info) : method_info :=
  {| className := className method;
     displayName := strip_args (displayName method);
     prefix := prefix method;
     selector := strip_args (selector method);
     typeEncoding := typeEncoding method |}.

Definition leaf (tag text : string) : element := Element tag [] (Some text) [].

(** The [dict] element of one method: a [key] and a [string] element
    for each of the five keys. *)
Definition method_dict (method : method_info) : element :=
  let clean_method := clean_method method in
  Element "dict" [] None
    (flat_map (λ kv : string * string, [leaf "key" kv.1; leaf "string" kv.2])
       [ ("className", className clean_method);
         ("displayName", displayName clean_method);
         ("prefix", prefix clean_method);
         ("selector", selector clean_method);
         ("typeEncoding", typeEncoding clean_method) ]).

Definition truthy (o : option string) : bool :=
  match o with
  | Some s => bool_decide (s ≠ "")
  | None => false
  end.

(** The [dict] element of one class. *)
Definition dict_class (info : class_info) : element :=
  Element "dict" [] None
    ([ leaf "key" "methods";
       Element "array" [] None (map method_dict (methods info));
       leaf "key" "name";
       Element "string" [] (name info) [] ]
     ++ (if truthy (superClassName info)
         then [ leaf "key" "superClassName";
                Element "string" [] (superClassName info) [] ]
         else [])).

(** [create_extracted_xml] up to the element tree [root]; its rendering
    as text and the write to the [.extracted] file are left out. *)
Definition create_extracted_xml (listdir : list string) (headers_dir : string)
  : element * list string :=
  let '(classes_data, out) :=
    classes_loop headers_dir (sorted listdir) [] [] in
  (Element "plist" [("version", "1.0")] None
     [ Element "dict" [] None
         [ leaf "key" "objcClasses";
           Element "array" [] None (map dict_class classes_data);
           leaf "key" "version";
           leaf "real" "1.2050000429153442" ] ],
   out).

End Driver.

(** ** Deleting the occurrences of a substring

    [deletes old s t]: [s] is made of pieces free of [old] with one
    occurrence of [old] between two consecutive pieces, and [t] is those
    pieces put together. *)
Definition deletes (old s t : string) : Prop :=
  ∃ pieces : list string,
    s = Py.join old pieces
    ∧ Forall (λ p, Py.contains p old = false) pieces
    ∧ t = Py.concat pieces.

(** The four deletions of [clean_method], one after the other. *)
Definition args_deleted (s t : string) : Prop :=
  ∃ s1 s2 s3,
    deletes "arg1" s s1 ∧ deletes "arg2" s1 s2
    ∧ deletes "arg3" s2 s3 ∧ deletes "arg4" s3 t.

(** ** Sample units *)

Definition unit_of (statements : list string) : string :=
  "@interface Foo : Bar" +:+ nl
    +:+ Py.concat (map (λ st, st +:+ nl) statements) +:+ "@end" +:+ nl.

Definition copy_unit : string := unit_of ["- (id)copyWithZone:(NSZone *)zone;"].
Definition sum_unit : string := unit_of ["- (NSInteger)sum:(int)a with:(int)b;"].
Definition block_param_unit : string :=
  unit_of ["- (void)run:(void (^)(BOOL))handler;"].
Definition renamed_param_unit : string :=
  unit_of ["- (void)foo:(int)a;"; "- (void)foo:(int)b;"].
Definition setter_unit : string := unit_of ["- (void)setFoo:(int)x;"].
Definition nsinteger_param_unit : string :=
  unit_of ["- (void)setCount:(NSInteger)c;"].
Definition nsinteger_return_unit : string := unit_of ["- (NSInteger)count;"].
Definition arg_label_unit : string :=
  unit_of ["- (void)setValue:(int)v arg1:(int)w;"].

(** A directory [/h] where [B.h] cannot be read. *)
Definition sample_read (file_path : string) : py_result string :=
  if String.eqb file_path "/h/B.h" then Raised "Permission denied"
  else Ok copy_unit.

(** ** Notions for the further properties *)

(** A class entry has a method, and the name its methods carry. *)
Definition well_formed_record (info : class_info) : Prop :=
  methods info ≠ []
  ∧ ∃ owner, name info = Some owner
             ∧ Forall (λ mi, className mi = owner) (methods info).

(** The codes the encoder has for a return type that ends in a star. *)
Definition pointer_codes : list string :=
  ["r^@"; "r^^"; "^@"; "^^"; "r@"; "r*"; "r^"; "@"; "^"].

(** Every character of [s] is in the class [p]. *)
Fixpoint all_chars (p : ascii → bool) (s : string) : bool :=
  match s with
  | "" => true
  | String c r => p c && all_chars p r
  end.

(** The captured groups are over the class [p]. *)
Definition caps_over (p : ascii → bool) (c : Re.caps) : Prop :=
  map_Forall (λ (_ : nat) v, all_chars p v = true) c.

(** The characters but the semicolon, and the characters but the two
    signs. *)
Definition no_semicolon (c : ascii) : bool := negb (Ascii.eqb ";" c).
Definition no_sign (c : ascii) : bool := negb (Py.mem_char c "+-").

(** The numbers of the groups of a pattern. *)
Fixpoint groups (r : Re.regex) : list nat :=
  match r with
  | Re.Eps | Re.Chr _ | Re.Bol => []
  | Re.Cat r1 r2 | Re.Alt r1 r2 => groups r1 ++ groups r2
  | Re.Star _ r' => groups r'
  | Re.Grp i r' => i :: groups r'
  end.

(** The parameters the second script finds in a line: the pairs of
    [parts], none when the line does not match or has no colon. *)
Definition second_parameters (line : string) : list (string * string) :=
  match Re.rmatch Second.declaration_pattern line with
  | Some m =>
      let selector_with_types := Re.group_str 3 m in
      if Py.contains selector_with_types ":"
      then map Second.param_of
             (Re.finditer Second.param_section_pattern selector_with_types)
      else []
  | None => []
  end.

(** A key of a table that the normalizations of the encoder leave as it
    is. *)
Definition plain_key (k : string) : Prop :=
  Py.strip k = k ∧ Main.is_block k = false
  ∧ k ≠ "BOOL" ∧ k ≠ "_Bool" ∧ k ≠ "instancetype".

(** The keys of [type_map] that reach it: the others end in a star or
    are block spellings. *)
Definition reaches_type_map (k : string) : bool :=
  negb (Py.endswith k "*") && negb (Main.is_block k).



(** * Properties *)

#[local] Arguments Ascii.eqb : simpl never.
#[local] Arguments String.eqb : simpl never.

(** ** Facts on strings *)

Lemma app_cons (c : ascii) (s t : string) : String c s +:+ t = String c (s +:+ t).
Proof. reflexivity. Qed.

Lemma app_nil_l (s : string) : "" +:+ s = s.
Proof. reflexivity. Qed.

Lemma app_nil_r (s : string) : s +:+ "" = s.
Proof. induction s as [|c s IH]; [done|]. by rewrite app_cons, IH. Qed.

Lemma app_assoc (a b c : string) : (a +:+ b) +:+ c = a +:+ b +:+ c.
Proof. induction a as [|x a IH]; [done|]. by rewrite !app_cons, IH. Qed.

Lemma startswith_app (s p t : string) :
  Py.startswith s p = true → Py.startswith (s +:+ t) p = true.
Proof.
  revert s; induction p as [|a p IH]; intros s.
  - done.
  - destruct s as [|b s]; simpl; [done|].
    intros [-> H]%andb_true_iff. rewrite ?app_cons; simpl.
    by rewrite (IH _ H).
Qed.

Lemma startswith_self_app (p t : string) : Py.startswith (p +:+ t) p = true.
Proof.
  induction p as [|a p IH]; [done|].
  rewrite app_cons. simpl. by rewrite Ascii.eqb_refl, IH.
Qed.

Lemma startswith_inv (t p : string) :
  Py.startswith t p = true → ∃ r, t = p +:+ r.
Proof.
  revert t. induction p as [|x p IH]; intros t H.
  - by exists t.
  - destruct t as [|y t]; [done|]. simpl in H.
    apply andb_true_iff in H as [->%Ascii.eqb_eq H].
    destruct (IH _ H) as [r ->]. by exists r.
Qed.

Lemma contains_app_l (a b sub : string) :
  Py.contains b sub = true → Py.contains (a +:+ b) sub = true.
Proof.
  intros H. induction a as [|c a IH]; [done|].
  rewrite app_cons. simpl. rewrite IH. apply orb_true_r.
Qed.

Lemma contains_startswith (s sub : string) :
  Py.startswith s sub = true → Py.contains s sub = true.
Proof. intros H. destruct s; simpl in *; by rewrite H. Qed.

Lemma contains_sub_app (s a b : string) :
  Py.contains s (a +:+ b) = true → Py.contains s b = true.
Proof.
  assert (Hst : ∀ t, Py.startswith t (a +:+ b) = true → Py.contains t b = true).
  { intros t [r ->]%startswith_inv. rewrite app_assoc.
    apply contains_app_l, contains_startswith, startswith_self_app. }
  induction s as [|c s IH].
  - intros H. apply Hst. by destruct (a +:+ b).
  - intros H. simpl in H. apply orb_true_iff in H as [H|H].
    + by apply (Hst (String c s)).
    + simpl. rewrite (IH H). apply orb_true_r.
Qed.

Lemma contains_false_count (c : ascii) (s : string) :
  Py.contains s (String c "") = false → Py.count_char c s = 0.
Proof.
  induction s as [|d s IH]; simpl; [done|].
  intros [H1 H2]%orb_false_iff.
  rewrite (IH H2). destruct (Ascii.eqb c d); [|done].
  by destruct s.
Qed.

Lemma contains_split_length (c : ascii) (s : string) :
  Py.contains s (String c "") = true → 2 ≤ length (Py.split_char c s).
Proof.
  assert (Hne : ∀ t, 1 ≤ length (Py.split_char c t)).
  { induction t as [|d t IH]; simpl; [lia|].
    destruct (Ascii.eqb c d); simpl; [lia|].
    destruct (Py.split_char c t); simpl in *; lia. }
  induction s as [|d s IH]; simpl; [done|].
  destruct (Ascii.eqb c d) eqn:E.
  - intros _. simpl. specialize (Hne s). lia.
  - simpl. intros H. specialize (IH H).
    destruct (Py.split_char c s); simpl in *; lia.
Qed.

Lemma endswith_star2 (s : string) :
  Py.endswith s "*" = false → Py.endswith s "**" = false.
Proof.
  unfold Py.endswith. change (String.rev "*") with "*".
  change (String.rev "**") with "**".
  destruct (String.rev s) as [|a r]; simpl; [done|].
  destruct (Ascii.eqb "*" a); simpl; [done|]. by intros _.
Qed.

(** ** The override table *)

(** The encoder returns the literal of every key of the table, whatever
    the return type. *)
Lemma calculate_type_encoding_special return_type selector params e :
  Main.special_method_encodings !! selector = Some e →
  Main.calculate_type_encoding return_type selector params = Ok e.
Proof. intros H. unfold Main.calculate_type_encoding. by rewrite H. Qed.

(** A [dealloc] without parameter is [v16@0:8] for every return type. *)
Lemma parse_groups_dealloc prefix return_type class_name :
  typeEncoding <$>
    (match Main.parse_groups prefix return_type "dealloc" class_name with
     | Ok mi => Some mi
     | Raised _ => None
     end) = Some "v16@0:8".
Proof. reflexivity. Qed.

(** C1: a prototype whose selector is a key of the override table gets
    the table's literal.  The scripts miss it when the selector has a
    parameter: [copyWithZone:] is a key, with the literal
    [@24@0:8^{_NSZone=}16], and the prototype of [copy_unit], a
    [copyWithZone:] with its one typed parameter, is given [@24@0:8@16] by the
    first script, which encodes a selector with parameters without a
    look at the table, and [@32@0:8] by the second, which looks up the
    selector [copyWithZone:copyWithZone:]. *)
Theorem override_table_missed_with_parameters :
  Main.special_method_encodings !! "copyWithZone:" = Some "@24@0:8^{_NSZone=}16"
  ∧ process_content Main.parse_method_declaration copy_unit
    = Ok ([ MethodInfo "-" "copyWithZone:" "@24@0:8@16"
                       "-(id) copyWithZone:(NSZone *)" "Foo" ],
          "Foo", Some "Bar")
  ∧ process_content Second.parse_method_declaration copy_unit
    = Ok ([ MethodInfo "-" "copyWithZone:copyWithZone:" "@32@0:8"
                       "-(id) copyWithZone:copyWithZone:(NSZone *)" "Foo" ],
          "Foo", Some "Bar").
Proof. repeat split; vm_compute; reflexivity. Qed.

(** C9: the [calculate_type_encoding] of the two scripts agree on every
    return type, selector and parameter list. *)
Theorem calculate_type_encoding_same return_type selector params :
  Main.calculate_type_encoding return_type selector params
  = Second.calculate_type_encoding return_type selector params.
Proof.
  unfold Main.calculate_type_encoding, Second.calculate_type_encoding.
  change Second.special_method_encodings with Main.special_method_encodings.
  destruct (Main.special_method_encodings !! selector) as [literal|]; [done|].
  change Second.encode_general with Main.encode_general.
  destruct (Py.in_list _ _ && Py.contains selector ":"); [|done].
  destruct (index (Py.split_char ":" selector) 1) as [param_type|e]; done.
Qed.

(** ** White space *)






(** ** Return codes *)







Lemma contains_middle (a x b : string) : Py.contains (a +:+ x +:+ b) x = true.
Proof. apply contains_app_l, contains_startswith, startswith_self_app. Qed.



(** ** Scenario 3 *)

(** For [- (NSInteger)sum:(int)a with:(int)b;] neither script yields the
    selector [sum:with:] together with the encoding [i32@0:8i16i24]. *)
Lemma sum_prototype_not_i32 :
  ¬ (∃ ms owner super mi,
       process_content Main.parse_method_declaration sum_unit = Ok (ms, owner, super)
       ∧ mi ∈ ms ∧ selector mi = "sum:with:"
       ∧ typeEncoding mi = "i32@0:8i16i24")
  ∧ ¬ (∃ ms owner super mi,
       process_content Second.parse_method_declaration sum_unit = Ok (ms, owner, super)
       ∧ mi ∈ ms ∧ selector mi = "sum:with:"
       ∧ typeEncoding mi = "i32@0:8i16i24").
Proof.
  split; intros (ms & owner & super & mi & Hrun & Hin & _ & Henc);
    vm_compute in Hrun; injection Hrun as <- _ _;
    apply list_elem_of_singleton in Hin; subst mi; discriminate Henc.
Qed.

(** What the first script yields for it. *)
Lemma sum_prototype_encoding :
  process_content Main.parse_method_declaration sum_unit
  = Ok ([ MethodInfo "-" "sum:with:" "@32@0:8i16i24"
                     "-(NSInteger) sum:(int) with:(int)" "Foo" ],
        "Foo", Some "Bar").
Proof. vm_compute. reflexivity. Qed.

(** C2: the return code of [- (NSInteger)sum:(int)a with:(int)b;] is the
    integer code [i], the encoding [i32@0:8i16i24].  The first script
    gives the selector [sum:with:], the frame 32 and the two parameters
    [i16] and [i24], but the return code [@]: the chain of return codes
    has no entry for [NSInteger], which the chain of parameter codes of
    the same function encodes as [i] (a parameter of that type is
    [i16]), and a return of that type without parameter is [@] as well.
    The second script gives [sum:sum:with:] and [@40@0:8]. *)
Theorem nsinteger_return_encoded_as_object :
  process_content Main.parse_method_declaration sum_unit
  = Ok ([ MethodInfo "-" "sum:with:" "@32@0:8i16i24"
                     "-(NSInteger) sum:(int) with:(int)" "Foo" ],
        "Foo", Some "Bar")
  ∧ Main.param_code_at ["NSInteger"] 0 = ("i", 16)
  ∧ process_content Main.parse_method_declaration nsinteger_param_unit
    = Ok ([ MethodInfo "-" "setCount:" "v24@0:8i16"
                       "-(void) setCount:(NSInteger)" "Foo" ],
          "Foo", Some "Bar")
  ∧ process_content Main.parse_method_declaration nsinteger_return_unit
    = Ok ([ MethodInfo "-" "count" "@16@0:8" "-(NSInteger) count" "Foo" ],
          "Foo", Some "Bar")
  ∧ process_content Second.parse_method_declaration sum_unit
    = Ok ([ MethodInfo "-" "sum:sum:with:" "@40@0:8"
                       "-(NSInteger) sum:sum:(int) with:(int)" "Foo" ],
          "Foo", Some "Bar").
Proof. repeat split; vm_compute; reflexivity. Qed.

(** ** Frame size *)





(** ** Parameter tokens *)

(** C6: one token [code offset] per parameter, at the offsets 16, 24,
    ...  The second script does not write them: for
    [- (void)setFoo:(int)x;] its encoder returns [v32@0:8], in which no
    token follows [@0:8] (and the frame counts the label twice, the
    selector being [setFoo:setFoo:]). *)
Lemma second_script_emits_no_token :
  process_content Second.parse_method_declaration setter_unit
  = Ok ([ MethodInfo "-" "setFoo:setFoo:" "v32@0:8"
                     "-(void) setFoo:setFoo:(int)" "Foo" ],
        "Foo", Some "Bar")
  ∧ Second.special_method_encodings !! "setFoo:setFoo:" = None
  ∧ ¬ (∃ rc code rest,
         "v32@0:8" = rc +:+ "@0:8" +:+ code +:+ pretty 16 +:+ rest).
Proof.
  split; [by vm_compute|]. split; [by vm_compute|].
  intros (rc & code & rest & H).
  assert (Py.contains "v32@0:8" (pretty 16) = true) as C.
  { rewrite H, <- (app_assoc "@0:8"), <- (app_assoc rc). apply contains_middle. }
  vm_compute in C. discriminate C.
Qed.



(** ** Nested parentheses *)

(** C4: a parameter type with parentheses of its own is to be captured
    whole.  It is cut at its first closing parenthesis: for
    [- (void)run:(void (^)(BOOL))handler;] the types found are
    [void (^] and [BOOL], the display name ends in [(void (^)] in both
    scripts, and [parse_method_parts], which counts the depth, is not
    called by either script (and gives the label [run] an empty
    type). *)
Theorem block_parameter_truncated :
  Main.types_of "run:(void (^)(BOOL))handler" = ["void (^"; "BOOL"]
  ∧ process_content Main.parse_method_declaration block_param_unit
    = Ok ([ MethodInfo "-" "run:(void (^)(BOOL))handler:" "v24@0:8@16"
                       "-(void) run:(void (^)(BOOL))handler:(void (^)" "Foo" ],
          "Foo", Some "Bar")
  ∧ process_content Second.parse_method_declaration block_param_unit
    = Ok ([ MethodInfo "-" "run:run:" "v32@0:8"
                       "-(void) run:run:(void (^)" "Foo" ],
          "Foo", Some "Bar")
  ∧ Main.parse_method_parts "run:(void (^)(BOOL))handler" = [("run", "")].
Proof. repeat split; vm_compute; reflexivity. Qed.

(** ** Duplicates *)

Section Dedup.

Variable parse : string → string → py_result (option method_info).
Variable current_interface : string.


End Dedup.




(** ** The batch *)

Section Batch.

Variable parse : string → string → py_result (option method_info).
Variable read : string → py_result string.
Variable headers_dir : string.

Lemma classes_loop_app (l1 l2 : list string) :
  ∀ classes_data out,
    classes_loop parse read headers_dir (l1 ++ l2) classes_data out
    = classes_loop parse read headers_dir l2
        (classes_loop parse read headers_dir l1 classes_data out).1
        (classes_loop parse read headers_dir l1 classes_data out).2.
Proof.
  induction l1 as [|f l1 IH]; intros classes_data out; [done|].
  simpl. destruct (negb (Py.endswith f ".h")); [apply IH|].
  destruct (process_header_file parse read _) as [[[ms c] s] printed].
  destruct ms; apply IH.
Qed.

Lemma process_header_file_unreadable (file_path e : string) :
  read file_path = Raised e →
  process_header_file parse read file_path
  = (([], None, None), ["Error processing file " +:+ file_path +:+ ": " +:+ e]).
Proof. intros H. unfold process_header_file. by rewrite H. Qed.

End Batch.

(** C7: a unit that cannot be read yields the triple without method and
    one printed line that names its path; a unit without method (one
    that cannot be read, or an empty one) adds no entry to
    [classes_data], and the loop goes on with the units after it. *)
Theorem batch_survives_unit_failure parse read headers_dir
  (before : list string) (filename : string) (after : list string) :
  let filepath := path_join headers_dir filename in
  let run := classes_loop parse read headers_dir in
  Py.endswith filename ".h" = true →
  (∀ e, read filepath = Raised e →
        process_header_file parse read filepath
        = (([], None, None),
           ["Error processing file " +:+ filepath +:+ ": " +:+ e])
        ∧ Py.contains ("Error processing file " +:+ filepath +:+ ": " +:+ e)
                      filepath = true)
  ∧ ((process_header_file parse read filepath).1.1.1 = [] →
     ∀ classes_data out,
       run (before ++ filename :: after) classes_data out
       = run after (run before classes_data out).1
             ((run before classes_data out).2
                ++ (process_header_file parse read filepath).2)).
Proof.
  intros filepath run Hh. split.
  - intros e He. split; [by apply process_header_file_unreadable|].
    apply contains_middle.
  - intros Hnone classes_data out. unfold run.
    rewrite classes_loop_app. simpl. rewrite Hh. simpl. fold filepath.
    destruct (process_header_file parse read filepath) as [[[ms c] s] printed].
    simpl in Hnone. by subst ms.
Qed.

(** ** Totality of the encoder *)

(** C8: [calculate_type_encoding] returns for every return type,
    selector and parameter list (the one indexing it does is in range),
    and a spelling that is in neither table, is no block and no pointer
    is encoded with [@]. *)
Theorem calculate_type_encoding_total return_type selector params :
  (∃ enc, Main.calculate_type_encoding return_type selector params = Ok enc)
  ∧ (let rt := Py.strip return_type in
     Main.special_method_encodings !! selector = None →
     Main.is_block rt = false →
     Main.struct_types !! rt = None →
     Main.type_map !! rt = None →
     Py.endswith rt "*" = false →
     Main.calculate_type_encoding return_type selector params
     = Ok ("@" +:+ pretty (16 + 8 * Py.count_char ":" selector) +:+ "@0:8")).
Proof.
  split.
  - unfold Main.calculate_type_encoding.
    destruct (Main.special_method_encodings !! selector); [by eexists|].
    destruct (_ && Py.contains selector ":") eqn:E; [|by eexists].
    apply andb_true_iff in E as [_ Hc].
    pose proof (contains_split_length _ _ Hc) as Hlen.
    unfold index.
    destruct (lookup_lt_is_Some_2 (Py.split_char ":" selector) 1) as [p ->]; [lia|].
    simpl. destruct (String.eqb _ _); by eexists.
  - intros rt Htab Hblock Hstruct Hmap Hptr. subst rt.
    unfold Main.calculate_type_encoding. rewrite Htab.
    destruct (String.eqb_spec return_type "_Bool") as [E|_].
    { subst return_type. by vm_compute in Hmap. }
    assert (Py.in_list (Py.strip return_type) ["BOOL"; "_Bool"] = false) as ->.
    { apply bool_decide_eq_false_2. intros Hin.
      apply elem_of_cons in Hin as [E|Hin]; [rewrite E in Hmap; by vm_compute in Hmap|].
      apply list_elem_of_singleton in Hin. rewrite Hin in Hmap. by vm_compute in Hmap. }
    simpl. unfold Main.encode_general.
    destruct (String.eqb_spec (Py.strip return_type) "instancetype") as [E|_].
    { rewrite E in Hmap. by vm_compute in Hmap. }
    rewrite Hblock, Hstruct.
    unfold Main.pointer_or_basic.
    by rewrite (endswith_star2 _ Hptr), Hptr, Hmap.
Qed.

(** [MyStruct] is in no table. *)
Lemma calculate_type_encoding_total_witness :
  Main.calculate_type_encoding "MyStruct" "frame" None
  = Ok ("@" +:+ pretty (16 + 8 * Py.count_char ":" "frame") +:+ "@0:8").
Proof.
  apply (calculate_type_encoding_total "MyStruct" "frame" None);
    vm_compute; reflexivity.
Defined.

(** ** [str.replace] *)

Lemma drop_app_length (a b : string) : Py.drop (String.length a) (a +:+ b) = b.
Proof. induction a as [|c a IH]; [by destruct b|]. by rewrite app_cons. Qed.

Lemma length_app (a b : string) :
  String.length (a +:+ b) = String.length a + String.length b.
Proof. induction a as [|c a IH]; [done|]. rewrite app_cons. simpl. by rewrite IH. Qed.

Lemma replace_go_skip (old new : string) (s : string) :
  ∀ k, Py.replace_go old new k s = Py.replace_go old new 0 (Py.drop k s).
Proof.
  induction s as [|c r IH]; intros [|k]; try done.
  simpl. apply IH.
Qed.

Lemma replace_hit (old new rest : string) :
  old ≠ "" →
  Py.replace old new (old +:+ rest) = new +:+ Py.replace old new rest.
Proof.
  destruct old as [|a old]; [done|]. intros _.
  unfold Py.replace. rewrite app_cons.
  change (Py.replace_go (String a old) new 0 (String a (old +:+ rest)))
    with (if Py.startswith (String a (old +:+ rest)) (String a old)
          then new +:+ Py.replace_go (String a old) new
                         (String.length (String a old) - 1) (old +:+ rest)
          else String a (Py.replace_go (String a old) new 0 (old +:+ rest))).
  rewrite <- app_cons, startswith_self_app.
  rewrite replace_go_skip.
  replace (String.length (String a old) - 1) with (String.length old)
    by (simpl; lia).
  by rewrite drop_app_length.
Qed.

Lemma replace_miss (old new : string) (c : ascii) (r : string) :
  Py.startswith (String c r) old = false →
  Py.replace old new (String c r) = String c (Py.replace old new r).
Proof. intros H. unfold Py.replace. simpl. by rewrite H. Qed.

(** [s.replace(old, '')] deletes the occurrences of [old] in [s]. *)
Lemma replace_deletes (old s : string) :
  old ≠ "" → deletes old s (Py.replace old "" s).
Proof.
  intros Hold.
  assert (Hempty : Py.contains "" old = false) by (by destruct old).
  assert (∀ n s, String.length s ≤ n →
            ∃ pieces, pieces ≠ [] ∧ s = Py.join old pieces
                      ∧ Forall (λ p, Py.contains p old = false) pieces
                      ∧ Py.replace old "" s = Py.concat pieces) as H.
  { clear s. induction n as [|n IH]; intros s Hlen.
    - destruct s; [|simpl in Hlen; lia].
      exists [""]. repeat split; [done|by constructor].
    - destruct s as [|c r].
      { exists [""]. repeat split; [done|by constructor]. }
      destruct (Py.startswith (String c r) old) eqn:Est.
      + destruct (startswith_inv _ _ Est) as [rest Hs].
        destruct (IH rest) as (ps & Hne & Hj & Hf & Hr).
        { assert (String.length (String c r) = String.length old + String.length rest)
            as Hl by (by rewrite Hs, length_app).
          destruct old; [done|]. simpl in Hl, Hlen. lia. }
        exists ("" :: ps). split; [done|]. split; [|split].
        * rewrite Hs, Hj. by destruct ps.
        * by constructor.
        * rewrite Hs, (replace_hit _ _ _ Hold), Hr. done.
      + destruct (IH r) as (ps & Hne & Hj & Hf & Hr).
        { simpl in Hlen. lia. }
        destruct ps as [|p ps]; [done|].
        apply Forall_cons in Hf as [Hp Hf].
        exists (String c p :: ps). split; [done|]. split; [|split].
        * rewrite Hj. by destruct ps.
        * constructor; [|done]. simpl. rewrite Hp, orb_false_r.
          destruct (Py.startswith (String c p) old) eqn:E; [|done].
          rewrite <- Est, Hj.
          destruct ps; [done|].
          change (Py.join old (p :: s :: ps)) with (p +:+ old +:+ Py.join old (s :: ps)).
          rewrite <- app_cons. symmetry. by apply startswith_app.
        * rewrite (replace_miss _ _ _ _ Est), Hr. done. }
  destruct (H (String.length s) s (le_n _)) as (ps & _ & Hj & Hf & Hr).
  exists ps. by rewrite Hr.
Qed.

Lemma strip_args_deleted (s : string) : args_deleted s (strip_args s).
Proof.
  unfold strip_args. eexists _, _, _.
  repeat split; apply replace_deletes; done.
Qed.

(** C10: the dictionary written for a method has the class name, the
    prefix and the encoding of the method unchanged, and a display name
    and a selector from which the occurrences of [arg1], then [arg2],
    [arg3] and [arg4] have been deleted; the label [arg1] of
    [setValue:arg1:] is lost that way. *)
Theorem serializer_deletes_arg_names (method : method_info) :
  let written := clean_method method in
  className written = className method
  ∧ prefix written = prefix method
  ∧ typeEncoding written = typeEncoding method
  ∧ args_deleted (displayName method) (displayName written)
  ∧ args_deleted (selector method) (selector written)
  ∧ method_dict method
    = Element "dict" [] None
        [ leaf "key" "className"; leaf "string" (className method);
          leaf "key" "displayName"; leaf "string" (displayName written);
          leaf "key" "prefix"; leaf "string" (prefix method);
          leaf "key" "selector"; leaf "string" (selector written);
          leaf "key" "typeEncoding"; leaf "string" (typeEncoding method) ]
  ∧ ∃ mi, process_content Main.parse_method_declaration arg_label_unit
          = Ok ([mi], "Foo", Some "Bar")
          ∧ selector mi = "setValue:arg1:"
          ∧ selector (clean_method mi) = "setValue::".
Proof.
  intros written. repeat split; try apply strip_args_deleted.
  eexists. split; [vm_compute; reflexivity|]. split; vm_compute; reflexivity.
Qed.

(** [B.h] cannot be read, [A.h] and [C.h] are processed. *)
Lemma batch_survives_unit_failure_witness :
  process_header_file Main.parse_method_declaration sample_read "/h/B.h"
  = (([], None, None), ["Error processing file /h/B.h: Permission denied"])
  ∧ classes_loop Main.parse_method_declaration sample_read "/h"
      (["A.h"] ++ "B.h" :: ["C.h"]) [] []
    = classes_loop Main.parse_method_declaration sample_read "/h" ["C.h"]
        (classes_loop Main.parse_method_declaration sample_read "/h" ["A.h"] [] []).1
        ((classes_loop Main.parse_method_declaration sample_read "/h" ["A.h"] [] []).2
           ++ ["Error processing file /h/B.h: Permission denied"]).
Proof.
  destruct (batch_survives_unit_failure Main.parse_method_declaration
              sample_read "/h" ["A.h"] "B.h" ["C.h"]) as [H1 H2];
    [vm_compute; reflexivity|].
  split.
  - apply (H1 "Permission denied"). reflexivity.
  - apply (H2 eq_refl [] []).
Defined.

(** The directory of [sample_read], listed out of order and with a file
    that is no header. *)
Example batch_of_three :
  (classes_loop Main.parse_method_declaration sample_read "/h"
     (sorted ["C.h"; "notes.txt"; "B.h"; "A.h"]) [] [])
  = ([ ClassInfo (Some "Foo") (Some "Bar")
         [MethodInfo "-" "copyWithZone:" "@24@0:8@16" "-(id) copyWithZone:(NSZone *)" "Foo"];
       ClassInfo (Some "Foo") (Some "Bar")
         [MethodInfo "-" "copyWithZone:" "@24@0:8@16" "-(id) copyWithZone:(NSZone *)" "Foo"] ],
     ["Error processing file /h/B.h: Permission denied"]).
Proof. vm_compute. reflexivity. Qed.

(** * Further properties *)

(** ** No exception but the failed read *)

Lemma bind_ok {A B} (f : A → py_result B) (x : A) : mbind f (Ok x) = f x.
Proof. reflexivity. Qed.

Lemma index_head {A} (x : A) (l : list A) : index (x :: l) 0 = Ok x.
Proof. reflexivity. Qed.

Lemma split_char_nonempty (c : ascii) (s : string) : Py.split_char c s ≠ [].
Proof.
  induction s as [|d s IH]; simpl; [done|].
  destruct (Ascii.eqb c d); [done|]. by destruct (Py.split_char c s).
Qed.

Lemma calculate_type_encoding_returns return_type selector params :
  ∃ enc, Main.calculate_type_encoding return_type selector params = Ok enc.
Proof.
  unfold Main.calculate_type_encoding.
  destruct (Main.special_method_encodings !! selector); [by eexists|].
  destruct (_ && Py.contains selector ":") eqn:E; [|by eexists].
  apply andb_true_iff in E as [_ Hc].
  pose proof (contains_split_length _ _ Hc) as Hlen.
  unfold index.
  destruct (lookup_lt_is_Some_2 (Py.split_char ":" selector) 1) as [p ->]; [lia|].
  simpl. destruct (String.eqb _ _); by eexists.
Qed.

Lemma main_parse_returns (line class_name : string) :
  ∃ r, Main.parse_method_declaration line class_name = Ok r.
Proof.
  unfold Main.parse_method_declaration.
  destruct (Re.rmatch _ _) as [m|]; [|by eexists].
  unfold Main.parse_groups.
  destruct (Py.contains _ ".cxx_destruct"); [by eexists|].
  destruct (negb _); [|by eexists].
  destruct (calculate_type_encoding_returns
              (Py.strip (Re.group_str 2 m)) (Py.strip (Re.group_str 3 m)) None)
    as [enc ->].
  by eexists.
Qed.

Lemma second_parse_returns (line class_name : string) :
  ∃ r, Second.parse_method_declaration line class_name = Ok r.
Proof.
  unfold Second.parse_method_declaration.
  destruct (Re.rmatch _ _) as [m|]; [|by eexists].
  unfold Second.parse_groups.
  change Second.calculate_type_encoding with Main.calculate_type_encoding.
  destruct (negb _).
  - match goal with
    | |- context [Main.calculate_type_encoding ?a ?b ?c] =>
        destruct (calculate_type_encoding_returns a b c) as [enc ->]
    end.
    by eexists.
  - destruct (Py.split_char ":" (Re.group_str 3 m)) as [|first rest] eqn:E;
      [by apply split_char_nonempty in E|].
    rewrite index_head, bind_ok.
    match goal with
    | |- context [Main.calculate_type_encoding ?a ?b ?c] =>
        destruct (calculate_type_encoding_returns a b c) as [enc ->]
    end.
    by eexists.
Qed.

Section Loop.

Variable parse : string → string → py_result (option method_info).
Variable current_interface : string.

Lemma method_loop_returns :
  (∀ line class_name, ∃ r, parse line class_name = Ok r) →
  ∀ sts seen methods,
    ∃ ms, method_loop parse current_interface sts seen methods = Ok ms.
Proof.
  intros Hparse. induction sts as [|st sts IH]; intros seen methods.
  - by eexists.
  - simpl. case_bool_decide; [apply IH|].
    destruct (Hparse (st.1.1 +:+ "(" +:+ st.1.2 +:+ ") " +:+ clean_selector st)
                current_interface) as [[mi|] ->]; simpl; apply IH.
Qed.

(** The methods the loop adds carry the name of the owner. *)
Lemma method_loop_class_name :
  ∀ sts seen methods ms,
    Forall (λ mi, className mi = current_interface) methods →
    method_loop parse current_interface sts seen methods = Ok ms →
    Forall (λ mi, className mi = current_interface) ms.
Proof.
  induction sts as [|st sts IH]; intros seen methods ms Hacc.
  - by intros [= <-].
  - simpl. case_bool_decide; [by apply IH|].
    destruct (parse _ _) as [[mi|]|e]; simpl; [| by apply IH | done].
    apply IH. apply Forall_app. split; [done|]. by constructor.
Qed.

End Loop.

Lemma process_content_returns parse (content : string) :
  (∀ line class_name, ∃ r, parse line class_name = Ok r) →
  ∃ ms owner super, process_content parse content = Ok (ms, owner, super).
Proof.
  intros Hparse. unfold process_content.
  destruct (method_loop_returns parse (find_owner (clean_content content)).1
              Hparse (statements (clean_content content)) ∅ []) as [ms ->].
  by eexists _, _, _.
Qed.

Lemma process_header_file_quiet parse read (file_path : string) :
  (∀ line class_name, ∃ r, parse line class_name = Ok r) →
  (process_header_file parse read file_path).2 = []
  ↔ ∃ content, read file_path = Ok content.
Proof.
  intros Hparse. unfold process_header_file.
  destruct (read file_path) as [content|e]; simpl.
  - destruct (process_content_returns parse content Hparse)
      as (ms & owner & super & ->).
    split; [by eexists|done].
  - split; [done|]. by intros [? ?].
Qed.

(** X1: with the parser of either script, [process_header_file] prints
    nothing exactly when the unit could be read: parsing raises no
    exception. *)
Theorem diagnostic_only_for_failed_read read (file_path : string) :
  ((process_header_file Main.parse_method_declaration read file_path).2 = []
   ↔ ∃ content, read file_path = Ok content)
  ∧ ((process_header_file Second.parse_method_declaration read file_path).2 = []
     ↔ ∃ content, read file_path = Ok content).
Proof.
  split; apply process_header_file_quiet;
    [apply main_parse_returns | apply second_parse_returns].
Qed.

(** ** The owner of the methods *)

Lemma process_content_owner parse (content : string)
  (ms : list method_info) (owner : string) (super : option string) :
  process_content parse content = Ok (ms, owner, super) →
  Forall (λ mi, className mi = owner) ms.
Proof.
  unfold process_content.
  destruct (method_loop _ _ _ _ _) as [ms'|e] eqn:E; [|done].
  simpl. intros [= <- <- <-].
  by eapply method_loop_class_name in E.
Qed.

(** X2: the methods of a unit all carry, as [className], the owner the
    unit is returned with. *)
Theorem methods_carry_owner parse (content : string)
  (ms : list method_info) (owner : string) (super : option string) :
  process_content parse content = Ok (ms, owner, super) →
  Forall (λ mi, className mi = owner) ms.
Proof. apply process_content_owner. Qed.

Lemma methods_carry_owner_witness :
  Forall (λ mi, className mi = "Foo")
    [ MethodInfo "-" "foo:" "v24@0:8i16" "-(void) foo:(int)" "Foo";
      MethodInfo "-" "foo:" "v24@0:8i16" "-(void) foo:(int)" "Foo" ].
Proof.
  apply (methods_carry_owner Main.parse_method_declaration renamed_param_unit
           _ "Foo" (Some "Bar")).
  vm_compute. reflexivity.
Defined.

(** ** The listing *)

(** X3: the document does not depend on the order in which the
    directory is listed. *)
Theorem listing_order_irrelevant parse read (headers_dir : string)
  (listing1 listing2 : list string) :
  listing1 ≡ₚ listing2 →
  create_extracted_xml parse read listing1 headers_dir
  = create_extracted_xml parse read listing2 headers_dir.
Proof.
  intros Hp. unfold create_extracted_xml.
  assert (sorted listing1 = sorted listing2) as ->; [|done].
  unfold sorted. apply (Sorted_unique (≤)%string).
  - apply Sorted_merge_sort, _.
  - apply Sorted_merge_sort, _.
  - by rewrite !merge_sort_Permutation.
Qed.

Lemma listing_order_irrelevant_witness :
  create_extracted_xml Main.parse_method_declaration sample_read
    ["C.h"; "B.h"; "A.h"] "/h"
  = create_extracted_xml Main.parse_method_declaration sample_read
      ["A.h"; "C.h"; "B.h"] "/h".
Proof.
  apply listing_order_irrelevant.
  apply (Permutation_trans (l' := ["C.h"; "A.h"; "B.h"])).
  - apply perm_skip, perm_swap.
  - apply perm_swap.
Defined.

Section Records.

Variable parse : string → string → py_result (option method_info).
Variable read : string → py_result string.
Variable headers_dir : string.

(** X4: the file names that do not end in [.h] play no part. *)
Lemma other_files_ignored (filenames : list string) :
  ∀ classes_data out,
    classes_loop parse read headers_dir filenames classes_data out
    = classes_loop parse read headers_dir
        (filter (λ f, Py.endswith f ".h" = true) filenames) classes_data out.
Proof.
  induction filenames as [|f l IH]; intros classes_data out; [done|].
  destruct (Py.endswith f ".h") eqn:E.
  - rewrite filter_cons_True by done. simpl. rewrite E. simpl.
    destruct (process_header_file parse read _) as [[[ms c] s] printed].
    destruct ms; apply IH.
  - rewrite filter_cons_False by (by rewrite E). simpl. rewrite E. apply IH.
Qed.


Lemma classes_loop_records (filenames : list string) :
  ∀ classes_data out,
    Forall well_formed_record classes_data →
    Forall well_formed_record
      (classes_loop parse read headers_dir filenames classes_data out).1.
Proof.
  induction filenames as [|f l IH]; intros classes_data out Hacc; [done|].
  simpl. destruct (negb _); [by apply IH|].
  unfold process_header_file.
  destruct (read _) as [content|e]; simpl; [|by apply IH].
  destruct (process_content parse content) as [[[ms owner] super]|e] eqn:E;
    simpl; [|by apply IH].
  destruct ms as [|mi ms]; [by apply IH|].
  apply IH. apply Forall_app. split; [done|]. constructor; [|done].
  split; [done|]. exists owner. split; [done|].
  by eapply process_content_owner.
Qed.

End Records.

(** X5: every entry of [classes_data] has a method and a name, the name
    its methods carry. *)
Theorem records_are_well_formed parse read (headers_dir : string)
  (filenames : list string) :
  Forall well_formed_record
    (classes_loop parse read headers_dir filenames [] []).1.
Proof. by apply classes_loop_records. Qed.

(** ** Pointers *)


Lemma pointer_or_basic_pointer (return_type : string) :
  Py.endswith return_type "*" = true →
  Main.pointer_or_basic return_type ∈ pointer_codes.
Proof.
  intros H. unfold Main.pointer_or_basic. rewrite H.
  repeat match goal with
         | |- context [if ?b then _ else _] => destruct b
         end; unfold pointer_codes; set_solver.
Qed.

(** X6: a return type that ends in a star, is no block and is not in
    the table of structures gets one of nine pointer codes; [type_map]
    is not consulted for it. *)
Theorem pointer_return_code return_type selector params :
  let rt := Py.strip return_type in
  Main.special_method_encodings !! selector = None →
  Py.endswith rt "*" = true →
  Main.is_block rt = false →
  Main.struct_types !! rt = None →
  ∃ code, code ∈ pointer_codes
    ∧ Main.calculate_type_encoding return_type selector params
      = Ok (code +:+ pretty (16 + 8 * Py.count_char ":" selector) +:+ "@0:8").
Proof.
  intros rt Htab Hptr Hblock Hstruct. subst rt.
  unfold Main.calculate_type_encoding. rewrite Htab.
  destruct (String.eqb_spec return_type "_Bool") as [E|_].
  { subst return_type. by vm_compute in Hptr. }
  assert (Py.in_list (Py.strip return_type) ["BOOL"; "_Bool"] = false) as ->.
  { apply bool_decide_eq_false_2. intros Hin.
    apply elem_of_cons in Hin as [E|Hin]; [rewrite E in Hptr; by vm_compute in Hptr|].
    apply list_elem_of_singleton in Hin. rewrite Hin in Hptr. by vm_compute in Hptr. }
  simpl. unfold Main.encode_general.
  destruct (String.eqb_spec (Py.strip return_type) "instancetype") as [E|_].
  { rewrite E in Hptr. by vm_compute in Hptr. }
  rewrite Hblock, Hstruct.
  eexists. split; [|done]. by apply pointer_or_basic_pointer.
Qed.

Lemma pointer_return_code_witness :
  ∃ code, code ∈ pointer_codes
    ∧ Main.calculate_type_encoding "char *" "name" None
      = Ok (code +:+ pretty (16 + 8 * Py.count_char ":" "name") +:+ "@0:8").
Proof.
  apply (pointer_return_code "char *" "name" None); vm_compute; reflexivity.
Defined.

(** ** The implicit arguments *)

Lemma contains_after (a b sub : string) : Py.contains (a +:+ sub +:+ b) sub = true.
Proof. apply contains_app_l, contains_startswith, startswith_self_app. Qed.

Lemma special_encodings_implicit (k v : string) :
  Main.special_method_encodings !! k = Some v → Py.contains v "@0:8" = true.
Proof.
  revert k v.
  assert (H : map_Forall (λ (_ : string) v, Py.contains v "@0:8" = true)
                Main.special_method_encodings).
  { apply map_Forall_to_list, (bool_decide_unpack _). vm_compute. exact I. }
  exact H.
Qed.

Lemma calculate_type_encoding_implicit return_type selector params enc :
  Main.calculate_type_encoding return_type selector params = Ok enc →
  Py.contains enc "@0:8" = true.
Proof.
  assert (Hgen : ∀ rt, Py.contains (Main.encode_general rt selector) "@0:8" = true).
  { intros rt. unfold Main.encode_general.
    destruct (Main.is_block _).
    - unfold Main.block_encoding.
      repeat match goal with
             | |- context [if ?b then _ else _] => destruct b
             end; reflexivity.
    - destruct (Main.struct_types !! _);
        rewrite <- (app_nil_r "@0:8"), <- app_assoc; apply contains_after. }
  unfold Main.calculate_type_encoding.
  destruct (Main.special_method_encodings !! selector) as [v|] eqn:E.
  { intros [= <-]. by eapply special_encodings_implicit. }
  destruct (_ && _).
  - destruct (index _ _) as [p|e]; [|done]. rewrite bind_ok.
    destruct (String.eqb _ _); intros [= <-]; [reflexivity|apply Hgen].
  - intros [= <-]. apply Hgen.
Qed.

(** X8: every encoding either script produces contains the receiver and
    the selector, [@0:8]. *)
Theorem encoding_has_implicit_arguments (line class_name : string) (mi : method_info) :
  Main.parse_method_declaration line class_name = Ok (Some mi)
  ∨ Second.parse_method_declaration line class_name = Ok (Some mi) →
  Py.contains (typeEncoding mi) "@0:8" = true.
Proof.
  intros [H|H].
  - unfold Main.parse_method_declaration in H.
    destruct (Re.rmatch _ _) as [m|]; [|done].
    destruct (Main.parse_groups _ _ _ _) as [mi'|e] eqn:E; [|done].
    rewrite bind_ok in H. injection H as ->.
    unfold Main.parse_groups in E.
    destruct (Py.contains _ ".cxx_destruct"); [by injection E as <-|].
    destruct (negb _).
    + destruct (Main.calculate_type_encoding _ _ _) as [enc|e] eqn:Ec; [|done].
      rewrite bind_ok in E. injection E as <-.
      by eapply calculate_type_encoding_implicit.
    + injection E as <-. cbn [typeEncoding].
      rewrite <- app_assoc. apply contains_after.
  - unfold Second.parse_method_declaration in H.
    destruct (Re.rmatch _ _) as [m|]; [|done].
    destruct (Second.parse_groups _ _ _ _) as [mi'|e] eqn:E; [|done].
    rewrite bind_ok in H. injection H as ->.
    unfold Second.parse_groups in E.
    change Second.calculate_type_encoding with Main.calculate_type_encoding in E.
    destruct (negb _).
    + destruct (Main.calculate_type_encoding _ _ _) as [enc|e] eqn:Ec; [|done].
      rewrite bind_ok in E. injection E as <-.
      by eapply calculate_type_encoding_implicit.
    + destruct (index _ 0) as [first|e]; [|done]. rewrite bind_ok in E.
      destruct (Main.calculate_type_encoding _ _ _) as [enc|e] eqn:Ec; [|done].
      rewrite bind_ok in E. injection E as <-.
      by eapply calculate_type_encoding_implicit.
Qed.

Lemma encoding_has_implicit_arguments_witness :
  Py.contains "@32@0:8i16i24" "@0:8" = true.
Proof.
  apply (encoding_has_implicit_arguments "-(NSInteger) sum:(int)a with:(int)b" "Foo"
           (MethodInfo "-" "sum:with:" "@32@0:8i16i24"
                       "-(NSInteger) sum:(int) with:(int)" "Foo")).
  left. vm_compute. reflexivity.
Defined.

(** ** Selectors without parameter in the override table *)

Lemma special_keys_plain (k v : string) :
  Main.special_method_encodings !! k = Some v →
  Py.contains k ".cxx_destruct" = false ∧ Py.strip k = k.
Proof.
  revert k v.
  assert (H : map_Forall (λ (k _ : string),
                Py.contains k ".cxx_destruct" = false ∧ Py.strip k = k)
                Main.special_method_encodings).
  { apply map_Forall_to_list, (bool_decide_unpack _). vm_compute. exact I. }
  exact H.
Qed.

(** X11: a selector without colon that is a key of the override table
    gets the literal of the table in both scripts, for every return
    type. *)
Theorem override_without_parameter prefix return_type selector class_name literal :
  Main.special_method_encodings !! selector = Some literal →
  Py.contains selector ":" = false →
  (∃ display,
     Main.parse_groups prefix return_type selector class_name
     = Ok (MethodInfo prefix selector literal display class_name))
  ∧ (∃ display,
     Second.parse_groups prefix return_type selector class_name
     = Ok (MethodInfo prefix selector literal display class_name)).
Proof.
  intros Htab Hcol.
  destruct (special_keys_plain _ _ Htab) as [Hcxx Hstrip].
  split.
  - unfold Main.parse_groups. rewrite Hcxx, Hstrip, Hcol. simpl negb. cbv iota.
    rewrite (calculate_type_encoding_special _ _ _ _ Htab), bind_ok.
    by eexists.
  - unfold Second.parse_groups. rewrite Hstrip, Hcol. simpl negb. cbv iota.
    change Second.calculate_type_encoding with Main.calculate_type_encoding.
    rewrite (calculate_type_encoding_special _ _ _ _ Htab), bind_ok.
    by eexists.
Qed.

Lemma override_without_parameter_witness :
  (∃ display,
     Main.parse_groups "-" "int" "dealloc" "Foo"
     = Ok (MethodInfo "-" "dealloc" "v16@0:8" display "Foo"))
  ∧ (∃ display,
     Second.parse_groups "-" "int" "dealloc" "Foo"
     = Ok (MethodInfo "-" "dealloc" "v16@0:8" display "Foo")).
Proof.
  apply (override_without_parameter "-" "int" "dealloc" "Foo" "v16@0:8");
    vm_compute; reflexivity.
Defined.

(** ** Names without [arg] *)

Lemma contains_prefix (s a b : string) :
  Py.contains s (a +:+ b) = true → Py.contains s a = true.
Proof.
  induction s as [|c s IH]; intros H; simpl in H.
  - rewrite orb_false_r in H. apply contains_startswith.
    destruct (startswith_inv _ _ H) as [r Hr].
    destruct a; [done|]. by destruct r.
  - apply orb_true_iff in H as [H|H].
    + apply contains_startswith.
      destruct (startswith_inv _ _ H) as [r ->].
      rewrite app_assoc. apply startswith_self_app.
    + simpl. rewrite (IH H). apply orb_true_r.
Qed.

Lemma replace_absent (old new s : string) :
  Py.contains s old = false → Py.replace old new s = s.
Proof.
  induction s as [|c s IH]; [done|].
  simpl. intros [H1 H2]%orb_false_iff.
  rewrite (replace_miss _ _ _ _ H1). by rewrite (IH H2).
Qed.

Lemma strip_args_absent (s : string) :
  Py.contains s "arg" = false → strip_args s = s.
Proof.
  intros H. unfold strip_args.
  assert (∀ d, Py.contains s ("arg" +:+ d) = false) as Hd.
  { intros d. destruct (Py.contains s ("arg" +:+ d)) eqn:E; [|done].
    apply contains_prefix in E. congruence. }
  rewrite (replace_absent "arg1" "" s) by apply (Hd "1").
  rewrite (replace_absent "arg2" "" s) by apply (Hd "2").
  rewrite (replace_absent "arg3" "" s) by apply (Hd "3").
  apply replace_absent, (Hd "4").
Qed.

(** X9: a method whose display name and selector do not contain [arg]
    is written as it is. *)
Theorem clean_method_without_arg (method : method_info) :
  Py.contains (displayName method) "arg" = false →
  Py.contains (selector method) "arg" = false →
  clean_method method = method.
Proof.
  intros Hd Hs. unfold clean_method.
  rewrite (strip_args_absent _ Hd), (strip_args_absent _ Hs).
  by destruct method.
Qed.

Lemma clean_method_without_arg_witness :
  clean_method (MethodInfo "-" "sum:with:" "@32@0:8i16i24"
                           "-(NSInteger) sum:(int) with:(int)" "Foo")
  = MethodInfo "-" "sum:with:" "@32@0:8i16i24"
               "-(NSInteger) sum:(int) with:(int)" "Foo".
Proof. apply clean_method_without_arg; vm_compute; reflexivity. Defined.

(** ** The last character *)

Lemma rev_app_acc (s acc : string) : String.rev_app s acc = String.rev s +:+ acc.
Proof.
  revert acc. induction s as [|c s IH]; intros acc; [done|].
  unfold String.rev. simpl. rewrite (IH (String c acc)), (IH (String c "")).
  by rewrite app_assoc.
Qed.

Lemma rev_cons (c : ascii) (s : string) :
  String.rev (String c s) = String.rev s +:+ String c "".
Proof. unfold String.rev at 1. simpl. apply rev_app_acc. Qed.

Lemma rev_app (a b : string) : String.rev (a +:+ b) = String.rev b +:+ String.rev a.
Proof.
  induction a as [|c a IH]; [by rewrite app_nil_r|].
  by rewrite app_cons, !rev_cons, IH, app_assoc.
Qed.

Lemma rev_involutive (s : string) : String.rev (String.rev s) = s.
Proof.
  induction s as [|c s IH]; [done|].
  by rewrite rev_cons, rev_app, IH.
Qed.

Lemma endswith_app (a b : string) : Py.endswith (a +:+ b) b = true.
Proof. unfold Py.endswith. rewrite rev_app. apply startswith_self_app. Qed.

Lemma endswith_contains (s p : string) :
  Py.endswith s p = true → Py.contains s p = true.
Proof.
  unfold Py.endswith. intros [r Hr]%startswith_inv.
  rewrite <- (rev_involutive s), Hr, rev_app, rev_involutive.
  rewrite <- (app_nil_r p) at 1. apply contains_after.
Qed.

(** X7: in the first script the selector ends in a colon exactly when
    the selector text has a colon. *)
Theorem selector_ends_with_colon prefix return_type raw_selector class_name mi :
  Main.parse_groups prefix return_type raw_selector class_name = Ok mi →
  Py.contains raw_selector ".cxx_destruct" = false →
  Py.endswith (selector mi) ":" = Py.contains (Py.strip raw_selector) ":".
Proof.
  unfold Main.parse_groups. intros H Hcxx. rewrite Hcxx in H.
  destruct (Py.contains (Py.strip raw_selector) ":") eqn:Ecol; simpl negb in H;
    cbv iota in H.
  - injection H as <-. cbn [selector]. apply endswith_app.
  - destruct (Main.calculate_type_encoding _ _ _) as [enc|e]; [|done].
    rewrite bind_ok in H. injection H as <-. cbn [selector].
    destruct (Py.endswith (Py.strip raw_selector) ":") eqn:E; [|done].
    apply endswith_contains in E. congruence.
Qed.

Lemma selector_ends_with_colon_witness :
  Py.endswith "sum:with:" ":" = Py.contains (Py.strip "sum:(int)a with:(int)b") ":".
Proof.
  apply (selector_ends_with_colon "-" "NSInteger" "sum:(int)a with:(int)b" "Foo"
           (MethodInfo "-" "sum:with:" "@32@0:8i16i24"
                       "-(NSInteger) sum:(int) with:(int)" "Foo"));
    vm_compute; reflexivity.
Defined.


(** ** Texts over a class of characters *)

Section Chars.

Variable p : ascii → bool.


Lemma all_chars_app (a b : string) :
  all_chars p (a +:+ b) = all_chars p a && all_chars p b.
Proof.
  induction a as [|c a IH]; [done|].
  rewrite app_cons. simpl. by rewrite IH, andb_assoc.
Qed.

Lemma all_chars_take (n : nat) (s : string) :
  all_chars p s = true → all_chars p (Py.take n s) = true.
Proof.
  revert n. induction s as [|c s IH]; intros [|n]; simpl; try done.
  intros [-> H]%andb_true_iff. by apply IH.
Qed.

Lemma all_chars_drop (n : nat) (s : string) :
  all_chars p s = true → all_chars p (Py.drop n s) = true.
Proof.
  revert n. induction s as [|c s IH]; intros [|n]; simpl; try done.
  intros [_ H]%andb_true_iff. by apply IH.
Qed.

(** What the continuation is given is over the class when the subject
    and the groups are. *)
Lemma run_over (Q : nat * Re.caps → Prop) (r : Re.regex) :
  ∀ (k : Re.cont) s pos c x,
    (∀ s' pos' c', all_chars p s' = true → caps_over p c' →
                   k s' pos' c' = Some x → Q x) →
    all_chars p s = true → caps_over p c →
    Re.run r k s pos c = Some x → Q x.
Proof.
  induction r as [|q|r1 IH1 r2 IH2|r1 IH1 r2 IH2|g r IH|i r IH|];
    intros k s pos c x Hk Hs Hc; simpl.
  - by apply Hk.
  - destruct s as [|a s']; [done|]. simpl in Hs.
    apply andb_true_iff in Hs as [_ Hs].
    destruct (q a); [|done]. by apply Hk.
  - apply IH1; [|done..]. intros s' pos' c' Hs' Hc'. by apply IH2.
  - destruct (Re.run r1 k s pos c) as [y|] eqn:E.
    + intros [= <-]. by eapply IH1.
    + by apply IH2.
  - generalize (String.length s). intros n.
    revert s pos c Hs Hc. induction n as [|n IHn]; intros s pos c Hs Hc.
    + by apply Hk.
    + assert (Hagain : ∀ y, Re.run r
                (λ s' pos' c', if pos <? pos' then
                   (fix loop (n : nat) (s : string) (pos : nat) (c : Re.caps)
                      : option (nat * Re.caps) :=
                      match n with
                      | O => k s pos c
                      | S n' =>
                          let again := λ s' pos' c',
                            if pos <? pos' then loop n' s' pos' c' else None in
                          if g then
                            match Re.run r again s pos c with
                            | Some x => Some x
                            | None => k s pos c
                            end
                          else
                            match k s pos c with
                            | Some x => Some x
                            | None => Re.run r again s pos c
                            end
                      end) n s' pos' c' else None) s pos c = Some y → y = x → Q x).
      { intros y Hy ->. revert Hy. apply IH; [|done..].
        intros s' pos' c' Hs' Hc'. destruct (pos <? pos'); [|done].
        by apply IHn. }
      destruct g.
      * destruct (Re.run r _ s pos c) as [y|] eqn:E.
        -- intros [= <-]. by eapply Hagain.
        -- by apply Hk.
      * destruct (k s pos c) as [y|] eqn:E.
        -- intros [= <-]. by eapply Hk.
        -- intros Hy. by eapply Hagain.
  - apply IH; [|done..]. intros s' pos' c' Hs' Hc'. apply Hk; [done|].
    apply map_Forall_insert_2; [|done]. by apply all_chars_take.
  - destruct (pos =? 0); [|done]. by apply Hk.
Qed.

Lemma match_at_groups_over (r : Re.regex) (s : string) (pos : nat) (m : Re.match_obj) :
  all_chars p s = true →
  Re.match_at r s pos = Some m → caps_over p (Re.m_groups m).
Proof.
  intros Hs. unfold Re.match_at.
  destruct (Re.run r Re.accept s pos ∅) as [[e c]|] eqn:E; [|done].
  intros [= <-]. simpl.
  revert E. apply (run_over (λ x, caps_over p x.2)); [|done|].
  - intros s' pos' c' _ Hc' Heq. injection Heq as _ <-. exact Hc'.
  - apply map_Forall_empty.
Qed.

Lemma search_from_groups_over (r : Re.regex) (fuel : nat) :
  ∀ s pos m,
    all_chars p s = true →
    Re.search_from r fuel s pos = Some m → caps_over p (Re.m_groups m).
Proof.
  induction fuel as [|f IH]; intros s pos m Hs; simpl.
  - destruct (Re.match_at r s pos) eqn:E; [|done].
    intros [= <-]. by eapply match_at_groups_over.
  - destruct (Re.match_at r s pos) eqn:E.
    + intros [= <-]. by eapply match_at_groups_over.
    + destruct s as [|a s']; [done|]. simpl in Hs.
      apply andb_true_iff in Hs as [_ Hs]. by apply IH.
Qed.

Lemma finditer_from_groups_over (r : Re.regex) (fuel : nat) :
  ∀ s pos,
    all_chars p s = true →
    Forall (λ m, caps_over p (Re.m_groups m)) (Re.finditer_from r fuel s pos).
Proof.
  induction fuel as [|f IH]; intros s pos Hs; simpl; [done|].
  destruct (Re.search_from r _ s pos) as [m|] eqn:E; [|done].
  constructor; [by eapply search_from_groups_over|].
  apply IH. by apply all_chars_drop.
Qed.

(** A substitution keeps a text over the class when the replacements
    are over it. *)
Lemma sub_go_over (repl : Re.match_obj → string) (s : string) (ms : list Re.match_obj) :
  all_chars p s = true →
  Forall (λ m, all_chars p (repl m) = true) ms →
  ∀ pos, all_chars p (Re.sub_go repl s pos ms) = true.
Proof.
  intros Hs. induction 1 as [|m ms Hm _ IH]; intros pos; simpl.
  - by apply all_chars_drop.
  - rewrite !all_chars_app, Hm, IH.
    unfold Re.substr. by rewrite all_chars_take by by apply all_chars_drop.
Qed.

Lemma clean_content_over (content : string) :
  p " " = true →
  all_chars p content = true → all_chars p (clean_content content) = true.
Proof.
  intros Hsp Hc. unfold clean_content, Re.sub.
  assert (∀ r s, all_chars p s = true →
            all_chars p (Re.sub_go (λ _, "") s 0 (Re.finditer r s)) = true) as Hdel.
  { intros r s Hs. apply sub_go_over; [done|]. by apply Forall_forall. }
  apply sub_go_over; [by do 2 apply Hdel|].
  eapply Forall_impl; [apply finditer_from_groups_over; by do 2 apply Hdel|].
  intros m Hm. simpl. rewrite all_chars_app. simpl. rewrite Hsp. simpl.
  unfold Re.group_str, Re.group.
  destruct (Re.m_groups m !! 2) as [v|] eqn:E; [|done].
  by apply (Hm 2 v).
Qed.

(** No match anywhere when there is none at any text over the class. *)
Lemma finditer_none (r : Re.regex) (s : string) :
  (∀ s' pos, all_chars p s' = true → Re.match_at r s' pos = None) →
  all_chars p s = true → Re.finditer r s = [].
Proof.
  intros Hnone Hs. unfold Re.finditer. simpl.
  assert (∀ fuel s pos, all_chars p s = true →
            Re.search_from r fuel s pos = None) as Hsearch.
  { induction fuel as [|f IH]; intros s' pos Hs'; simpl;
      rewrite (Hnone _ _ Hs'); [done|].
    destruct s' as [|a s'']; [done|]. simpl in Hs'.
    apply andb_true_iff in Hs' as [_ Hs']. by apply IH. }
  by rewrite Hsearch.
Qed.

(** A pattern that ends in a character outside the class does not
    match. *)
Lemma run_cats_last (q : ascii → bool) (l : list Re.regex) :
  (∀ a, p a = true → q a = false) →
  ∀ (k : Re.cont) s pos c,
    all_chars p s = true → caps_over p c →
    Re.run (Re.Cats (l ++ [Re.Chr q])) k s pos c = None.
Proof.
  intros Hq k s pos c Hs Hc.
  destruct (Re.run _ k s pos c) as [x|] eqn:E; [|done]. exfalso.
  revert k s pos c Hs Hc E.
  induction l as [|r l IH]; intros k s pos c Hs Hc.
  - simpl. destruct s as [|a s']; [done|]. simpl in Hs.
    apply andb_true_iff in Hs as [Ha _]. by rewrite (Hq a Ha).
  - assert (Re.Cats ((r :: l) ++ [Re.Chr q])
            = Re.Cat r (Re.Cats (l ++ [Re.Chr q]))) as ->.
    { simpl. by destruct l. }
    simpl. apply (run_over (λ _, False)); [|done..].
    intros s' pos' c' Hs' Hc'. by apply IH.
Qed.

End Chars.

(** A pattern that begins with a group of one character does not match
    where that character is not. *)
Lemma run_first_char (q : ascii → bool) (i : nat) (r : Re.regex)
  (k : Re.cont) (s : string) (pos : nat) (c : Re.caps) :
  all_chars (λ a, negb (q a)) s = true →
  Re.run (Re.Cat (Re.Grp i (Re.Chr q)) r) k s pos c = None.
Proof.
  intros Hs. simpl. destruct s as [|a s']; [done|]. simpl in Hs.
  apply andb_true_iff in Hs as [Ha _].
  by destruct (q a).
Qed.


Lemma statements_none (text : string) :
  all_chars no_semicolon text = true ∨ all_chars no_sign text = true →
  statements text = [].
Proof.
  intros [H|H]; unfold statements.
  - rewrite (finditer_none no_semicolon); [done| |done].
    intros s' pos Hs'. unfold Re.match_at, method_pattern.
    rewrite (run_cats_last no_semicolon (Ascii.eqb ";")); [done| |done|].
    + intros a Ha. unfold no_semicolon in Ha. by destruct (Ascii.eqb ";" a).
    + apply map_Forall_empty.
  - rewrite (finditer_none no_sign); [done| |done].
    intros s' pos Hs'. unfold Re.match_at.
    change method_pattern
      with (Re.Cat (Re.Grp 1 (Re.Chr (λ c, Py.mem_char c "+-")))
                   (Re.Cats (tail Main.method_head ++ [Re.Lit1 ";"]))).
    by rewrite (run_first_char (λ c, Py.mem_char c "+-")) by exact Hs'.
Qed.

(** X12: a unit whose text has no semicolon, or neither sign, has no
    method. *)
Theorem unit_without_statement parse (content : string) :
  all_chars no_semicolon content = true ∨ all_chars no_sign content = true →
  process_content parse content
  = Ok ([], (find_owner (clean_content content)).1,
            (find_owner (clean_content content)).2).
Proof.
  intros H. unfold process_content.
  rewrite statements_none; [done|].
  destruct H as [H|H]; [left|right]; by apply clean_content_over.
Qed.

Lemma unit_without_statement_witness :
  process_content Main.parse_method_declaration
    ("@interface Foo : Bar" +:+ nl +:+ "@end" +:+ nl)
  = Ok ([], "Foo", Some "Bar").
Proof.
  apply (unit_without_statement Main.parse_method_declaration
           ("@interface Foo : Bar" +:+ nl +:+ "@end" +:+ nl)).
  left. vm_compute. reflexivity.
Defined.


(** ** The groups a pattern leaves alone *)

Section Keeps.

Variable J : Re.caps → Prop.

(** A property of the captured groups that holds before a pattern is
    run and is kept by a capture into any of its groups holds of what
    the continuation is given. *)
Lemma run_keeps (Q : nat * Re.caps → Prop) (r : Re.regex) :
  (∀ i v c, i ∈ groups r → J c → J (<[i := v]> c)) →
  ∀ (k : Re.cont) s pos c x,
    (∀ s' pos' c', J c' → k s' pos' c' = Some x → Q x) →
    J c → Re.run r k s pos c = Some x → Q x.
Proof.
  induction r as [|q|r1 IH1 r2 IH2|r1 IH1 r2 IH2|g r IH|i r IH|];
    intros HJ k s pos c x Hk Hc; simpl.
  - by apply Hk.
  - destruct s as [|a s']; [done|]. destruct (q a); [|done]. by apply Hk.
  - apply IH1; [intros; apply HJ; set_solver| |done].
    intros s' pos' c' Hc'. apply IH2; [intros; apply HJ; set_solver|done..].
  - destruct (Re.run r1 k s pos c) as [y|] eqn:E.
    + intros [= <-]. eapply IH1; [intros; apply HJ; set_solver|..]; done.
    + apply IH2; [intros; apply HJ; set_solver|done..].
  - generalize (String.length s). intros n.
    revert s pos c Hc. induction n as [|n IHn]; intros s pos c Hc.
    + by apply Hk.
    + assert (Hagain : ∀ y, Re.run r
                (λ s' pos' c', if pos <? pos' then
                   (fix loop (n : nat) (s : string) (pos : nat) (c : Re.caps)
                      : option (nat * Re.caps) :=
                      match n with
                      | O => k s pos c
                      | S n' =>
                          let again := λ s' pos' c',
                            if pos <? pos' then loop n' s' pos' c' else None in
                          if g then
                            match Re.run r again s pos c with
                            | Some x => Some x
                            | None => k s pos c
                            end
                          else
                            match k s pos c with
                            | Some x => Some x
                            | None => Re.run r again s pos c
                            end
                      end) n s' pos' c' else None) s pos c = Some y → y = x → Q x).
      { intros y Hy ->. revert Hy. apply IH; [done| |done].
        intros s' pos' c' Hc'. destruct (pos <? pos'); [|done].
        by apply IHn. }
      destruct g.
      * destruct (Re.run r _ s pos c) as [y|] eqn:E.
        -- intros [= <-]. by eapply Hagain.
        -- by apply Hk.
      * destruct (k s pos c) as [y|] eqn:E.
        -- intros [= <-]. by eapply Hk.
        -- intros Hy. by eapply Hagain.
  - apply IH; [intros; apply HJ; set_solver| |done].
    intros s' pos' c' Hc'. apply Hk. apply HJ; [set_solver|done].
  - destruct (pos =? 0); [|done]. by apply Hk.
Qed.

End Keeps.

(** The first group of a pattern that begins with a group of one
    character, and has no other group of that number, is that
    character. *)
Lemma first_group_char (q : ascii → bool) (i : nat) (r : Re.regex)
  (s : string) (pos : nat) (m : Re.match_obj) :
  i ∉ groups r →
  Re.match_at (Re.Cat (Re.Grp i (Re.Chr q)) r) s pos = Some m →
  ∃ a, q a = true ∧ Re.group i m = Some (String a "").
Proof.
  intros Hi. unfold Re.match_at.
  destruct (Re.run _ Re.accept s pos ∅) as [[e c]|] eqn:E; [|done].
  intros [= <-]. unfold Re.group. simpl. simpl in E.
  destruct s as [|a s']; [done|]. destruct (q a) eqn:Ea; [|done].
  exists a. split; [done|].
  replace (S pos - pos) with 1 in E by lia. simpl in E.
  revert E.
  apply (run_keeps (λ c, c !! i = Some (String a "")) (λ x, x.2 !! i = Some (String a ""))).
  - intros j v c' Hj Hc'. cbv beta. unfold Re.caps in *.
    rewrite lookup_insert_ne; [done|]. by intros ->.
  - intros s'' pos'' c'' Hc'' Heq. injection Heq as _ <-. exact Hc''.
  - apply lookup_insert_eq.
Qed.

(** X13: the prefix of a parsed method is one of the two signs. *)
Theorem prefix_is_sign (line class_name : string) (mi : method_info) :
  Main.parse_method_declaration line class_name = Ok (Some mi)
  ∨ Second.parse_method_declaration line class_name = Ok (Some mi) →
  prefix mi = "+" ∨ prefix mi = "-".
Proof.
  assert (Hsign : ∀ a, Py.mem_char a "+-" = true →
                       String a "" = "+" ∨ String a "" = "-").
  { intros a. simpl. rewrite orb_false_r.
    intros [->%Ascii.eqb_eq| ->%Ascii.eqb_eq]%orb_true_iff; auto. }
  intros [H|H].
  - unfold Main.parse_method_declaration, Re.rmatch in H.
    destruct (Re.match_at _ _ 0) as [m|] eqn:Em; [|done].
    change Main.declaration_pattern
      with (Re.Cat (Re.Grp 1 (Re.Chr (λ c, Py.mem_char c "+-")))
                   (Re.Cats (tail Main.method_head))) in Em.
    apply first_group_char in Em as (a & Ha & Hg); [|apply (bool_decide_unpack _); vm_compute; exact I].
    unfold Re.group_str in H. rewrite Hg in H. simpl default in H.
    destruct (Main.parse_groups _ _ _ _) as [mi'|e] eqn:E; [|done].
    rewrite bind_ok in H. injection H as ->.
    assert (prefix mi = String a "") as ->; [|by apply Hsign].
    unfold Main.parse_groups in E.
    destruct (Py.contains _ ".cxx_destruct"); [by injection E as <-|].
    destruct (negb _).
    + destruct (Main.calculate_type_encoding _ _ _); [|done].
      rewrite bind_ok in E. by injection E as <-.
    + by injection E as <-.
  - unfold Second.parse_method_declaration, Re.rmatch in H.
    destruct (Re.match_at _ _ 0) as [m|] eqn:Em; [|done].
    unfold Re.match_at in Em.
    change (Re.run Second.declaration_pattern Re.accept line 0 ∅)
      with (Re.run (Re.Cat (Re.Grp 1 (Re.Chr (λ c, Py.mem_char c "+-")))
                      (Re.Cats (tail (tail
                         [ Re.Bol;
                           Re.Grp 1 (Re.one_of "+-");
                           Re.Star true Re.space;
                           Re.Lit1 "(";
                           Re.Grp 2 (Re.Plus true (Re.Chr Second.return_type_char));
                           Re.Lit1 ")";
                           Re.Star true Re.space;
                           Re.Grp 3 (Re.Star true Second.selector_chunk) ]))))
              Re.accept line 0 ∅) in Em.
    fold (Re.match_at (Re.Cat (Re.Grp 1 (Re.Chr (λ c, Py.mem_char c "+-")))
                      (Re.Cats (tail (tail
                         [ Re.Bol;
                           Re.Grp 1 (Re.one_of "+-");
                           Re.Star true Re.space;
                           Re.Lit1 "(";
                           Re.Grp 2 (Re.Plus true (Re.Chr Second.return_type_char));
                           Re.Lit1 ")";
                           Re.Star true Re.space;
                           Re.Grp 3 (Re.Star true Second.selector_chunk) ])))) line 0) in Em.
    apply first_group_char in Em as (a & Ha & Hg); [|apply (bool_decide_unpack _); vm_compute; exact I].
    unfold Re.group_str in H. rewrite Hg in H. simpl default in H.
    destruct (Second.parse_groups _ _ _ _) as [mi'|e] eqn:E; [|done].
    rewrite bind_ok in H. injection H as ->.
    assert (prefix mi = String a "") as ->; [|by apply Hsign].
    unfold Second.parse_groups in E.
    destruct (negb _).
    + destruct (Second.calculate_type_encoding _ _ _); [|done].
      rewrite bind_ok in E. by injection E as <-.
    + destruct (index _ 0); [|done]. rewrite bind_ok in E.
      destruct (Second.calculate_type_encoding _ _ _); [|done].
      rewrite bind_ok in E. by injection E as <-.
Qed.

Lemma prefix_is_sign_witness : "-" = "+" ∨ "-" = "-".
Proof.
  apply (prefix_is_sign "-(NSInteger) sum:(int)a with:(int)b" "Foo"
           (MethodInfo "-" "sum:with:" "@32@0:8i16i24"
                       "-(NSInteger) sum:(int) with:(int)" "Foo")).
  left. vm_compute. reflexivity.
Defined.


(** ** The colons of the second script's selector *)

Lemma count_char_app (c : ascii) (a b : string) :
  Py.count_char c (a +:+ b) = Py.count_char c a + Py.count_char c b.
Proof.
  induction a as [|d a IH]; [done|].
  rewrite app_cons. simpl. rewrite IH. lia.
Qed.

Lemma count_char_concat (c : ascii) (l : list string) :
  Forall (λ x, 1 ≤ Py.count_char c x) l →
  length l ≤ Py.count_char c (Py.concat l).
Proof.
  induction 1 as [|x l Hx _ IH]; simpl; [done|].
  rewrite count_char_app. lia.
Qed.

Lemma selector_part_colon (p : string * string) :
  1 ≤ Py.count_char ":" (Second.selector_part p).
Proof.
  unfold Second.selector_part. case_bool_decide; [|by vm_compute].
  rewrite count_char_app. change (Py.count_char ":" ":") with 1. lia.
Qed.

Lemma strip_nonempty (a : ascii) (w : string) :
  Py.isspace a = false → Py.strip (String a w) ≠ "".
Proof.
  intros Ha. unfold Py.strip, Py.strip_by. simpl. rewrite Ha. simpl.
  destruct (Py.rstrip_by Py.isspace w); [by rewrite Ha|done].
Qed.

Lemma split_char_head (c a : ascii) (r : string) :
  Ascii.eqb c a = false →
  ∃ w ws, Py.split_char c (String a r) = String a w :: ws.
Proof.
  intros H. simpl. rewrite H.
  destruct (Py.split_char c r) as [|w ws]; by eexists _, _.
Qed.

(** The text of a starred group is empty or begins with a character the
    body can begin with. *)
Lemma starred_group_head (cls : ascii → bool) (i : nat) (r1 r2 : Re.regex)
  (s : string) (pos : nat) (c : Re.caps) (x : nat * Re.caps) :
  Re.run (Re.Grp i (Re.Star true (Re.Cat (Re.Cat (Re.Chr cls) r1) r2)))
         Re.accept s pos c = Some x →
  ∃ n, x.2 !! i = Some (Py.take n s)
       ∧ (n = 0 ∨ ∃ a s', s = String a s' ∧ cls a = true).
Proof.
  intros H.
  assert (Hk : ∃ s' pos' c',
             Re.accept s' pos' (<[i := Py.take (pos' - pos) s]> c') = Some x).
  { revert H. simpl.
    apply (run_keeps (λ _, True)
             (λ x, ∃ s' pos' c',
                Re.accept s' pos' (<[i := Py.take (pos' - pos) s]> c') = Some x)
             (Re.Star true (Re.Cat (Re.Cat (Re.Chr cls) r1) r2))); [done| |done].
    intros s' pos' c' _ Hx. by exists s', pos', c'. }
  destruct Hk as (s' & pos' & c' & Hx). injection Hx as <-. simpl.
  unfold Re.caps in *. rewrite lookup_insert_eq.
  destruct s as [|a s''].
  { exists 0. split; [by destruct (pos' - pos)|by left]. }
  destruct (cls a) eqn:Ea.
  { exists (pos' - pos). split; [done|]. right. by eexists _, _. }
  exists 0. split; [|by left].
  simpl in H. rewrite Ea in H. injection H as H _.
  by replace (pos' - pos) with 0 by lia.
Qed.

Lemma second_selector_head (line : string) (m : Re.match_obj) :
  Re.rmatch Second.declaration_pattern line = Some m →
  Re.group_str 3 m = ""
  ∨ ∃ a w, Re.group_str 3 m = String a w
           ∧ Py.isspace a = false ∧ Ascii.eqb ":" a = false.
Proof.
  unfold Re.rmatch, Re.match_at.
  destruct (Re.run _ Re.accept line 0 ∅) as [[e c]|] eqn:E; [|done].
  intros [= <-]. unfold Re.group_str, Re.group. simpl.
  assert (∃ s pos c0,
            Re.run (Re.Grp 3 (Re.Star true Second.selector_chunk))
                   Re.accept s pos c0 = Some (e, c)) as (s & pos & c0 & H).
  { revert E.
    change (Re.run Second.declaration_pattern Re.accept line 0 ∅)
      with (Re.run (Re.Cats [ Re.Bol;
                              Re.Grp 1 (Re.one_of "+-");
                              Re.Star true Re.space;
                              Re.Lit1 "(";
                              Re.Grp 2 (Re.Plus true (Re.Chr Second.return_type_char));
                              Re.Lit1 ")";
                              Re.Star true Re.space ])
                   (Re.run (Re.Grp 3 (Re.Star true Second.selector_chunk)) Re.accept)
                   line 0 ∅).
    apply (run_keeps (λ _, True)
             (λ x, ∃ s pos c0,
                Re.run (Re.Grp 3 (Re.Star true Second.selector_chunk))
                       Re.accept s pos c0 = Some x)); [done| |done].
    intros s' pos' c' _ Hx. by exists s', pos', c'. }
  apply (starred_group_head
           (λ c, negb (Py.isspace c || Ascii.eqb c ":"))) in H
    as (n & Hg & Hn).
  simpl in Hg. rewrite Hg. simpl.
  destruct Hn as [->|(a & s' & -> & Ha)]; [left; by destruct s|].
  destruct n as [|n]; [by left|]. right. exists a, (Py.take n s').
  split; [done|].
  apply negb_true_iff, orb_false_iff in Ha as [Hsp Hcol].
  split; [done|]. by rewrite Ascii.eqb_sym.
Qed.

(** X14: in the second script the selector of a method with parameters
    has more colons than the method has parameters. *)
Theorem second_selector_extra_colon (line class_name : string) (mi : method_info) :
  Second.parse_method_declaration line class_name = Ok (Some mi) →
  second_parameters line ≠ [] →
  length (second_parameters line) < Py.count_char ":" (selector mi).
Proof.
  unfold Second.parse_method_declaration, second_parameters.
  destruct (Re.rmatch Second.declaration_pattern line) as [m|] eqn:Em; [|done].
  destruct (Second.parse_groups _ _ _ _) as [mi'|e] eqn:E; [|done].
  rewrite bind_ok. intros [= ->]. cbv zeta.
  destruct (Py.contains (Re.group_str 3 m) ":") eqn:Ecol; [|done]. intros _.
  destruct (second_selector_head _ _ Em) as [H0|(a & w & Hw & Hsp & Hc)].
  { rewrite H0 in Ecol. by vm_compute in Ecol. }
  unfold Second.parse_groups in E. rewrite Ecol in E. simpl negb in E.
  cbv iota in E. rewrite Hw in E.
  destruct (split_char_head ":" a w Hc) as (hd & tl & Hsplit).
  rewrite Hsplit, index_head, bind_ok in E.
  rewrite bool_decide_true in E by apply strip_nonempty, Hsp.
  destruct (Second.calculate_type_encoding _ _ _) as [enc|e]; [|done].
  rewrite bind_ok in E. injection E as <-. cbn [selector].
  rewrite Hw, !count_char_app.
  pose proof (count_char_concat ":"
                (map Second.selector_part
                   (map Second.param_of
                      (Re.finditer Second.param_section_pattern (String a w))))) as Hc'.
  rewrite !length_map in *.
  change (Py.count_char ":" ":") with 1.
  assert (Forall (λ x, 1 ≤ Py.count_char ":" x)
            (map Second.selector_part
               (map Second.param_of
                  (Re.finditer Second.param_section_pattern (String a w))))) as HF.
  { apply Forall_forall. intros x [p [-> _]]%list_elem_of_fmap.
    apply selector_part_colon. }
  specialize (Hc' HF). lia.
Qed.

Lemma second_selector_extra_colon_witness :
  length (second_parameters "-(void) setFoo:(int)x")
  < Py.count_char ":" "setFoo:setFoo:".
Proof.
  apply (second_selector_extra_colon "-(void) setFoo:(int)x" "Foo"
           (MethodInfo "-" "setFoo:setFoo:" "v32@0:8"
                       "-(void) setFoo:setFoo:(int)" "Foo"));
    vm_compute; [reflexivity|discriminate].
Defined.

(** ** The two tables of return types *)


Lemma struct_keys_plain (k v : string) :
  Main.struct_types !! k = Some v → plain_key k.
Proof.
  revert k v.
  assert (H : map_Forall (λ (k _ : string), plain_key k) Main.struct_types).
  { apply map_Forall_to_list, (bool_decide_unpack _). vm_compute. exact I. }
  exact H.
Qed.

(** X15: a return type of the table of structures is encoded by its
    layout, followed by the frame size. *)
Theorem struct_return_layout return_type selector params layout :
  Main.struct_types !! Py.strip return_type = Some layout →
  Main.special_method_encodings !! selector = None →
  Main.calculate_type_encoding return_type selector params
  = Ok (layout +:+ pretty (16 + 8 * Py.count_char ":" selector) +:+ "@0:8").
Proof.
  intros Hs Htab.
  destruct (struct_keys_plain _ _ Hs) as (Hstrip & Hblock & Hb1 & Hb2 & Hi).
  unfold Main.calculate_type_encoding. rewrite Htab.
  destruct (String.eqb_spec return_type "_Bool") as [E|_].
  { subst return_type. by vm_compute in Hs. }
  assert (Py.in_list (Py.strip return_type) ["BOOL"; "_Bool"] = false) as ->.
  { apply bool_decide_eq_false_2. intros Hin.
    apply elem_of_cons in Hin as [E|Hin]; [done|].
    by apply list_elem_of_singleton in Hin. }
  simpl. unfold Main.encode_general.
  destruct (String.eqb_spec (Py.strip return_type) "instancetype") as [E|_]; [done|].
  by rewrite Hblock, Hs.
Qed.

Lemma struct_return_layout_witness :
  Main.calculate_type_encoding "CGRect" "frame" None
  = Ok ("{CGRect={CGPoint=dd}{CGSize=dd}}"
          +:+ pretty (16 + 8 * Py.count_char ":" "frame") +:+ "@0:8").
Proof. apply struct_return_layout; vm_compute; reflexivity. Defined.


Lemma type_map_keys (k v : string) :
  Main.type_map !! k = Some v →
  reaches_type_map k = true →
  Py.strip k = k ∧ Main.struct_types !! k = None
  ∧ Main.encode_general (if String.eqb k "_Bool" then "bool" else k) ""
    = v +:+ "16@0:8".
Proof.
  revert k v.
  assert (H : map_Forall (λ (k v : string),
                reaches_type_map k = true →
                Py.strip k = k ∧ Main.struct_types !! k = None
                ∧ Main.encode_general (if String.eqb k "_Bool" then "bool" else k) ""
                  = v +:+ "16@0:8") Main.type_map).
  { apply map_Forall_to_list, (bool_decide_unpack _). vm_compute. exact I. }
  exact H.
Qed.

Lemma encode_general_selector (return_type selector : string) :
  Py.contains selector ":" = false →
  Main.encode_general return_type selector = Main.encode_general return_type "".
Proof.
  intros H. unfold Main.encode_general.
  by rewrite (contains_false_count _ _ H).
Qed.

(** X16: for a selector without colon, a key of [type_map] that neither
    ends in a star nor is a block spelling is encoded by its entry. *)
Theorem basic_return_code return_type selector params code :
  Main.type_map !! return_type = Some code →
  reaches_type_map return_type = true →
  Main.special_method_encodings !! selector = None →
  Py.contains selector ":" = false →
  Main.calculate_type_encoding return_type selector params
  = Ok (code +:+ "16@0:8").
Proof.
  intros Hm Hr Htab Hcol.
  destruct (type_map_keys _ _ Hm Hr) as (Hstrip & Hstruct & Henc).
  unfold Main.calculate_type_encoding.
  rewrite Htab, Hcol, andb_false_r.
  by rewrite encode_general_selector, Henc.
Qed.

Lemma basic_return_code_witness :
  Main.calculate_type_encoding "unsigned int" "count" None = Ok ("I" +:+ "16@0:8").
Proof. apply basic_return_code; vm_compute; reflexivity. Defined.

(** ** [parse_method_parts] on a selector without colon *)

(** Without a colon among the tokens the loop adds no part. *)
Lemma parts_loop_no_colon (tokens : list string) :
  Forall (λ tok, tok ≠ ":") tokens →
  ∀ parts current_name current_type in_parens,
    Main.parts_loop tokens parts current_name current_type in_parens = parts.
Proof.
  induction 1 as [|tok tokens Htok _ IH]; intros parts cn ct d; [done|].
  simpl.
  destruct (String.eqb_spec tok ":") as [->|_]; [done|].
  repeat match goal with
         | |- context [if ?b then _ else _] => destruct b
         end; apply IH.
Qed.

Lemma findall0_over (p : ascii → bool) (r : Re.regex) (s : string) :
  all_chars p s = true →
  Forall (λ tok, all_chars p tok = true) (Re.findall0 r s).
Proof.
  intros Hs. unfold Re.findall0. apply Forall_fmap, Forall_forall.
  intros m _. simpl. unfold Re.substr.
  by apply all_chars_take, all_chars_drop.
Qed.

(** X17: [parse_method_parts] returns no part for a selector without
    colon. *)
Theorem parse_method_parts_no_colon (selector : string) :
  Py.contains selector ":" = false → Main.parse_method_parts selector = [].
Proof.
  intros H. unfold Main.parse_method_parts.
  apply parts_loop_no_colon.
  assert (all_chars (λ c, negb (Ascii.eqb ":" c)) selector = true) as Hs.
  { induction selector as [|a s IH]; [done|]. simpl in *.
    apply orb_false_iff in H as [H1 H2].
    rewrite (IH H2), andb_true_r.
    destruct (Ascii.eqb ":" a); [|done]. by destruct s. }
  eapply Forall_impl; [by apply findall0_over|].
  intros tok Htok ->. by vm_compute in Htok.
Qed.

Lemma parse_method_parts_no_colon_witness :
  Main.parse_method_parts "doSomething" = [].
Proof. apply parse_method_parts_no_colon. vm_compute. reflexivity. Defined.
